(** * mcp_agentspace.server: the Agentspace MCP tools

    A shallow embedding of [mcp_agentspace/server.py]: the two registered
    tools [get_search_response] and [get_deep_research_response], the helper
    [process_deep_research_response] and the unregistered library function
    [get_answer_response].

    Python values that come out of [json.loads] and [MessageToDict] are the
    inductive [PyVal]; exceptions are the inductive [PyExc]; a computation
    that may raise has type [py A]; the process environment [os.environ] and
    the HTTP requests put on the wire are threaded through [Process].
    Everything the module imports (google.auth, requests, json, the Discovery
    Engine client) is a field of the record [Runtime]. [ErrorData] of the
    mcp package is a pydantic model, built from keyword arguments only; the
    exception [McpError code message] is [McpError] raised with such a
    value. A [str] is kept as the bytes UTF-8 gives it, a lone surrogate as
    the three bytes UTF-8 would give that code point; the filesystem
    encoding, which [os.environ] uses, is UTF-8. *)

From stdpp Require Import base strings list gmap pretty.
From Stdlib Require Import ZArith.

Local Open Scope string_scope.

(** ** Python values *)

(** The image of a JSON document or of a protobuf [Struct]: dictionaries are
    association lists in insertion order (what iterating a [dict] yields),
    read by their first matching key. A [float] keeps the literal it was
    read from; no arithmetic is done on it here. *)
#[warnings="-register-all"]
Inductive PyVal : Type :=
| PNone
| PBool (b : bool)
| PInt (z : Z)
| PFloat (literal : string)
| PStr (s : string)
| PList (items : list PyVal)
| PDict (entries : list (string * PyVal)).

(** ** Exceptions *)

(** Where a class sits below [BaseException]. *)
Inductive ExcBase : Type :=
| DerivesValueError      (* ValueError or one of its subclasses *)
| DerivesException       (* Exception, but not ValueError *)
| DerivesBaseException.  (* KeyboardInterrupt, SystemExit, ... *)

#[warnings="-register-all"]
Inductive PyExc : Type :=
| KeyError (key : PyVal)
| IndexError
| TypeError (operand : PyVal)
| NameError (name : string)
| ValueError (msg : string)
| McpError (code : Z) (message : string)
| ForeignError (base : ExcBase) (cls : string) (msg : string).

Definition isinstance_ValueError (e : PyExc) : bool :=
  match e with
  | ValueError _ => true
  | ForeignError DerivesValueError _ _ => true
  | _ => false
  end.

Definition isinstance_Exception (e : PyExc) : bool :=
  match e with
  | ForeignError DerivesBaseException _ _ => false
  | _ => true
  end.

(** mcp.types: the JSON-RPC error codes. *)
Definition INVALID_PARAMS : Z := (-32602)%Z.
Definition INTERNAL_ERROR : Z := (-32603)%Z.

(** ** Computations that may raise *)

Inductive py (A : Type) : Type :=
| Return (a : A)
| Raise (e : PyExc).
Arguments Return {A} a.
Arguments Raise {A} e.

#[global] Instance py_ret : MRet py := @Return.

#[global] Instance py_bind : MBind py := fun A B k c =>
  match c with
  | Return a => k a
  | Raise e => Raise e
  end.

(** ** Strings *)

Definition LF : string := String (Ascii.ascii_of_nat 10) EmptyString.

(** [for ch in s]: the one-character strings of [s]. *)
Fixpoint str_chars (s : string) : list PyVal :=
  match s with
  | EmptyString => []
  | String c rest => PStr (String c EmptyString) :: str_chars rest
  end.

Fixpoint has_null_byte (s : string) : bool :=
  match s with
  | EmptyString => false
  | String c rest =>
      if Ascii.eqb c Ascii.zero then true else has_null_byte rest
  end.

(** Truth value of a [str]: the empty string is false. *)
Definition str_truthy (s : string) : bool :=
  match s with
  | EmptyString => false
  | String _ _ => true
  end.

(** ** Subscripting, iteration, concatenation *)

Fixpoint dict_get {V : Type} (k : string) (entries : list (string * V)) : option V :=
  match entries with
  | [] => None
  | (k', v) :: rest => if String.eqb k k' then Some v else dict_get k rest
  end.

(** [d[k] = v] on a dictionary: an existing key keeps its place, a new one
    goes last. *)
Fixpoint dict_setitem {V : Type} (k : string) (v : V) (entries : list (string * V))
  : list (string * V) :=
  match entries with
  | [] => [(k, v)]
  | (k', v') :: rest =>
      if String.eqb k k' then (k, v) :: rest
      else (k', v') :: dict_setitem k v rest
  end.

(** [obj[key]] with a string key. *)
Definition getitem (obj : PyVal) (key : string) : py PyVal :=
  match obj with
  | PDict entries =>
      match dict_get key entries with
      | Some v => Return v
      | None => Raise (KeyError (PStr key))
      end
  | _ => Raise (TypeError obj)
  end.

(** [obj[0]]. The keys of a dictionary read from JSON are strings, so [0]
    is never one of them. *)
Definition getitem0 (obj : PyVal) : py PyVal :=
  match obj with
  | PList (x :: _) => Return x
  | PList [] => Raise IndexError
  | PStr (String c _) => Return (PStr (String c EmptyString))
  | PStr EmptyString => Raise IndexError
  | PDict _ => Raise (KeyError (PInt 0))
  | _ => Raise (TypeError obj)
  end.

(** [for x in obj]: the items the loop visits. *)
Definition py_iter (obj : PyVal) : py (list PyVal) :=
  match obj with
  | PList items => Return items
  | PDict entries => Return (map (fun kv => PStr (fst kv)) entries)
  | PStr s => Return (str_chars s)
  | _ => Raise (TypeError obj)
  end.

(** [v + '\n'], defined on strings only. *)
Definition add_newline (v : PyVal) : py string :=
  match v with
  | PStr s => Return (s +:+ LF)
  | _ => Raise (TypeError v)
  end.

(** ** The Discovery Engine search messages *)

Record SummarySpec := {
  summary_result_count : Z;
  include_citations : bool;
  ignore_adversarial_query : bool;
  ignore_non_summary_seeking_query : bool;
  preamble : option string;
  model_version : string }.

Record ExtractiveContentSpec := {
  max_extractive_segment_count : Z;
  max_extractive_answer_count : Z;
  return_extractive_segment_score : bool }.

Record ContentSearchSpec := {
  return_snippet : bool;
  summary_spec : SummarySpec;
  extractive_content_spec : ExtractiveContentSpec }.

Inductive Condition := CONDITION_AUTO | CONDITION_DISABLED.
Inductive Mode := MODE_AUTO | MODE_SUGGESTION_ONLY.

Record SearchRequest := {
  serving_config : string;
  query : string;
  page_size : Z;
  content_search_spec : ContentSearchSpec;
  query_expansion_spec : Condition;
  spell_correction_spec : Mode }.

(** A [Document] message: the fields that [MessageToDict] can show. A
    message-typed field is present or not; a string field that is empty is
    unset. *)
Record Document := {
  name : string;
  id : string;
  struct_data : option (list (string * PyVal));
  derived_struct_data : option (list (string * PyVal)) }.

Record SearchResult := { document : Document }.

Record SearchResponse := { results : list SearchResult }.

(** [MessageToDict(document._pb, preserving_proto_field_name=True)]: one
    entry per field that is set, under the field's proto name, in field
    order. *)
Definition MessageToDict (d : Document) : PyVal :=
  PDict ((if str_truthy (name d) then [("name", PStr (name d))] else [])
      ++ (if str_truthy (id d) then [("id", PStr (id d))] else [])
      ++ match struct_data d with
         | Some s => [("struct_data", PDict s)]
         | None => []
         end
      ++ match derived_struct_data d with
         | Some s => [("derived_struct_data", PDict s)]
         | None => []
         end).

(** The answer request: the options [get_answer_response] fills in. *)
Record AnswerQueryRequest := {
  answer_serving_config : string;
  answer_query_text : string;
  answer_session : option string;
  rephraser_disable : bool;
  max_rephrase_steps : Z;
  answer_model_version : string;
  answer_preamble : string;
  answer_include_citations : bool;
  answer_language_code : string }.

(** ** The deep-research HTTP exchange *)

Record HttpRequest := {
  url : string;
  data : string;
  headers : list (string * string) }.

Record Response := { text : string }.

(** ** What the module imports *)

Record Runtime := {
  (* google.auth.default() followed by creds.refresh(...): creds.token *)
  google_auth_token : py string;
  (* requests.post(url=..., data=..., headers=...) *)
  requests_post : HttpRequest → py Response;
  json_loads : string → py PyVal;
  json_dumps : PyVal → string;
  (* discoveryengine.SearchServiceClient(client_options=...) *)
  SearchServiceClient : option string → py unit;
  (* client.search(request) *)
  client_search : SearchRequest → py SearchResponse;
  (* discoveryengine.ConversationalSearchServiceClient(client_options=...) *)
  ConversationalSearchServiceClient : option string → py unit;
  (* client.answer_query(request).answer.answer_text *)
  client_answer_query : AnswerQueryRequest → py string;
  (* str(e) *)
  exc_str : PyExc → string }.

(** ** The process: os.environ and the requests sent so far *)

Record Process := {
  environ : gmap string string;
  wire : list HttpRequest }.

Definition io (A : Type) : Type := Process → py A * Process.

#[global] Instance io_ret : MRet io := fun A a p => (Return a, p).

#[global] Instance io_bind : MBind io := fun A B k c p =>
  match c p with
  | (Return a, p') => k a p'
  | (Raise e, p') => (Raise e, p')
  end.

Definition lift {A : Type} (c : py A) : io A := fun p => (c, p).

(** [os.environ.get(key)]. *)
Definition environ_get (key : string) : io (option string) :=
  fun p => (Return (environ p !! key), p).

(** *** The environment's encoding *)

Definition between (lo hi : N) (c : Ascii.ascii) : bool :=
  (lo <=? Ascii.N_of_ascii c)%N && (Ascii.N_of_ascii c <=? hi)%N.

Definition is_continuation (c : Ascii.ascii) : bool := between 128 191 c.

(** The length of a UTF-8 sequence by its first byte, 0 when the byte
    cannot start one. *)
Definition sequence_length (b0 : Ascii.ascii) : nat :=
  if between 0 127 b0 then 1
  else if between 194 223 b0 then 2
  else if between 224 239 b0 then 3
  else if between 240 244 b0 then 4
  else 0.

(** The second byte is a continuation byte, in a range narrowed after E0,
    ED, F0 and F4 (no overlong form, no surrogate, nothing above
    U+10FFFF). *)
Definition second_byte_ok (b0 b1 : Ascii.ascii) : bool :=
  if (Ascii.N_of_ascii b0 =? 224)%N then between 160 191 b1
  else if (Ascii.N_of_ascii b0 =? 237)%N then between 128 159 b1
  else if (Ascii.N_of_ascii b0 =? 240)%N then between 144 191 b1
  else if (Ascii.N_of_ascii b0 =? 244)%N then between 128 143 b1
  else is_continuation b1.

(** The length of the well-formed UTF-8 sequence that [bytes] begins with,
    0 when there is none. *)
Definition utf8_head (bytes : string) : nat :=
  match bytes with
  | String b0 rest =>
      match sequence_length b0, rest with
      | 1, _ => 1
      | 2, String b1 _ => if second_byte_ok b0 b1 then 2 else 0
      | 3, String b1 (String b2 _) =>
          if second_byte_ok b0 b1 && is_continuation b2 then 3 else 0
      | 4, String b1 (String b2 (String b3 _)) =>
          if second_byte_ok b0 b1 && is_continuation b2 && is_continuation b3
          then 4 else 0
      | _, _ => 0
      end
  | EmptyString => 0
  end.

(** A surrogate code point at the head of a [str]: [None] when there is
    none, [Some None] for one that cannot be encoded, [Some (Some b)] for
    U+DC80..U+DCFF, which [surrogateescape] turns back into the byte [b]. *)
Definition surrogate_at (s : string) : option (option Ascii.ascii) :=
  match s with
  | String b0 (String b1 (String b2 _)) =>
      if (Ascii.N_of_ascii b0 =? 237)%N && between 160 191 b1
         && is_continuation b2
      then if between 178 179 b1
           then Some (Some (Ascii.ascii_of_N
                              (128 + 64 * (Ascii.N_of_ascii b1 - 178)
                               + (Ascii.N_of_ascii b2 - 128))))
           else Some None
      else None
  | _ => None
  end.

(** [value.encode('utf-8', 'surrogateescape')]; [drop] counts the bytes of
    a surrogate still to be passed over. *)
Fixpoint fsencode_from (drop : nat) (s : string) : py string :=
  match s with
  | EmptyString => Return EmptyString
  | String b rest =>
      match drop with
      | S k => fsencode_from k rest
      | 0 =>
          match surrogate_at s with
          | None => bytes ← fsencode_from 0 rest; mret (String b bytes)
          | Some (Some escaped) =>
              bytes ← fsencode_from 2 rest; mret (String escaped bytes)
          | Some None =>
              Raise (ForeignError DerivesValueError "UnicodeEncodeError"
                       "surrogates not allowed")
          end
      end
  end.

Definition fsencode (s : string) : py string := fsencode_from 0 s.

(** The surrogate U+DC00+b that stands for a byte [b] no sequence
    accounts for. *)
Definition escape_byte (b : Ascii.ascii) : string :=
  String (Ascii.ascii_of_N 237)
    (String (Ascii.ascii_of_N (if (Ascii.N_of_ascii b <? 192)%N then 178 else 179))
       (String (Ascii.ascii_of_N (128 + Ascii.N_of_ascii b mod 64)) EmptyString)).

(** [bytes.decode('utf-8', 'surrogateescape')]; [pending] counts the bytes
    left of the sequence being copied. *)
Fixpoint fsdecode_from (pending : nat) (bytes : string) : string :=
  match bytes with
  | EmptyString => EmptyString
  | String b rest =>
      match pending with
      | S k => String b (fsdecode_from k rest)
      | 0 =>
          match utf8_head bytes with
          | S k => String b (fsdecode_from k rest)
          | 0 => escape_byte b +:+ fsdecode_from 0 rest
          end
      end
  end.

Definition fsdecode (bytes : string) : string := fsdecode_from 0 bytes.

(** What [os.environ] gives back for a key once the string [s] has been
    assigned to it: the string is encoded (a surrogate outside
    U+DC80..U+DCFF raises [UnicodeEncodeError]), [putenv] refuses a null
    byte, and reading decodes the bytes kept. *)
Definition environ_value (s : string) : py string :=
  bytes ← fsencode s;
  if has_null_byte bytes then Raise (ValueError "embedded null byte")
  else mret (fsdecode bytes).

(** [os.environ[key] = value]: only a [str] is accepted, and only one that
    the encoding and [putenv] accept. *)
Definition environ_setitem (key : string) (value : PyVal) : io unit :=
  fun p =>
    match value with
    | PStr s =>
        match environ_value s with
        | Return stored =>
            (Return (),
             {| environ := <[key := stored]> (environ p); wire := wire p |})
        | Raise e => (Raise e, p)
        end
    | _ => (Raise (TypeError value), p)
    end.

(** A [str] of well-formed sequences only: no lone surrogate. *)
Fixpoint valid_utf8_from (pending : nat) (s : string) : bool :=
  match s with
  | EmptyString => true
  | String b rest =>
      match pending with
      | S k => is_continuation b && valid_utf8_from k rest
      | 0 =>
          match utf8_head s with
          | S k => valid_utf8_from k rest
          | 0 => false
          end
      end
  end.

Definition valid_utf8 (s : string) : bool := valid_utf8_from 0 s.

(** ** mcp.types.ErrorData *)

(** A call of [ErrorData] with positional arguments [args] and keyword
    arguments [kwargs]. The class is a pydantic model, and
    [BaseModel.__init__(self, /, **data)] takes no positional argument: a
    call that passes one raises [TypeError] before any field is looked at.
    From keywords the value is built when [code] is an integer and
    [message] a string. *)
Definition ErrorData (args : list PyVal) (kwargs : list (string * PyVal))
  : py (Z * string) :=
  match args with
  | _ :: _ => Raise (TypeError (PStr "BaseModel.__init__"))
  | [] =>
      match dict_get "code" kwargs, dict_get "message" kwargs with
      | Some (PInt code), Some (PStr message) => Return (code, message)
      | _, _ => Raise (ForeignError DerivesValueError "ValidationError"
                         "validation error for ErrorData")
      end
  end.

(** [raise McpError(ErrorData(code, message)) from e]: what the statement
    raises. The arguments are evaluated first, so a failing [ErrorData]
    call is what leaves the handler. *)
Definition raise_McpError (code : Z) (message : string) : PyExc :=
  match ErrorData [PInt code; PStr message] [] with
  | Return (code', message') => McpError code' message'
  | Raise e => e
  end.

(** ** The tools *)

Section Server.

Variable rt : Runtime.

(** The two [except] clauses that close both registered tools, tried in
    the order they are written; an exception that neither clause matches
    leaves the function as it is. *)
Definition except_clauses (e : PyExc) : PyExc :=
  if isinstance_ValueError e then raise_McpError INVALID_PARAMS (exc_str rt e)
  else if isinstance_Exception e then
    raise_McpError INTERNAL_ERROR ("Unexpected error: " +:+ exc_str rt e)
  else e.

Definition get_auth_header : py (list (string * string)) :=
  token ← google_auth_token rt;
  mret [("Authorization", "Bearer " +:+ token);
        ("Content-Type", "application/json; charset=UTF-8")].

(** *** get_search_response *)

(** The identifiers each of the two tools binds as locals, with the same
    values in both. *)
Definition project_id : string := "the-foo-bar".
Definition location : string := "global".
Definition engine_id : string := "cymbal-bank_1746202630648".
Definition prompt_preamble : option string := None.

Definition client_options : option string :=
  if negb (String.eqb location "global")
  then Some (location +:+ "-discoveryengine.googleapis.com")
  else None.

Definition search_serving_config : string :=
  "projects/" +:+ project_id +:+ "/locations/" +:+ location
  +:+ "/collections/default_collection/engines/" +:+ engine_id
  +:+ "/servingConfigs/default_config".

Definition search_request (search_query : string) : SearchRequest :=
  {| serving_config := search_serving_config;
     query := search_query;
     page_size := 10;
     content_search_spec :=
       {| return_snippet := true;
          summary_spec :=
            {| summary_result_count := 5;
               include_citations := true;
               ignore_adversarial_query := true;
               ignore_non_summary_seeking_query := true;
               preamble := prompt_preamble;
               model_version := "stable" |};
          extractive_content_spec :=
            {| max_extractive_segment_count := 2;
               max_extractive_answer_count := 2;
               return_extractive_segment_score := true |} |};
     query_expansion_spec := CONDITION_AUTO;
     spell_correction_spec := MODE_AUTO |}.

(** [response.results[0]] on the repeated field. *)
Definition results0 (response : SearchResponse) : py SearchResult :=
  match results response with
  | r :: _ => Return r
  | [] => Raise IndexError
  end.

(** The body of the [try] block. *)
Definition get_search_response_try (search_query : string) : py PyVal :=
  _ ← SearchServiceClient rt client_options;
  response ← client_search rt (search_request search_query);
  result ← results0 response;
  let document_dict := MessageToDict (document result) in
  derived ← getitem document_dict "derived_struct_data";
  answers ← getitem derived "extractive_answers";
  answer ← getitem0 answers;
  getitem answer "content".

Definition get_search_response (search_query : string) : py PyVal :=
  match get_search_response_try search_query with
  | Return v => Return v
  | Raise e => Raise (except_clauses e)
  end.

(** *** process_deep_research_response *)

Definition heading : string := "# Reserach Plan" +:+ LF.

(** [reply['groundedContent']['content']['text']]. *)
Definition reply_text (reply : PyVal) : py PyVal :=
  grounded ← getitem reply "groundedContent";
  content ← getitem grounded "content";
  getitem content "text".

(** One pass of the inner loop body: the line a reply adds to [raw_text]. *)
Definition reply_line (reply : PyVal) : py string :=
  model_text ← reply_text reply;
  add_newline model_text.

(** [for reply in replies]: the outcome of the loop and [raw_text] as the
    loop leaves it; what was appended before an exception stays appended. *)
Fixpoint replies_loop (replies : list PyVal) (raw_text : string)
  : py unit * string :=
  match replies with
  | [] => (Return (), raw_text)
  | reply :: rest =>
      match reply_line reply with
      | Return line => replies_loop rest (raw_text +:+ line)
      | Raise e => (Raise e, raw_text)
      end
  end.

(** The [try] block of one row. *)
Definition row_try (row : PyVal) (raw_text : string) : py unit * string :=
  match (answer ← getitem row "answer";
         replies ← getitem answer "replies";
         py_iter replies) with
  | Return replies => replies_loop replies raw_text
  | Raise e => (Raise e, raw_text)
  end.

(** [for row in text_json]: the bare [except] drops whatever the row
    raised and goes on with the next row. *)
Fixpoint rows_loop (rows : list PyVal) (raw_text : string) : string :=
  match rows with
  | [] => raw_text
  | row :: rest => rows_loop rest (snd (row_try row raw_text))
  end.

Definition process_deep_research_response (response : Response) : py string :=
  text_json ← json_loads rt (text response);
  rows ← py_iter text_json;
  mret (rows_loop rows heading).

(** *** get_deep_research_response *)

Definition assistant_id : string := "default_assistant".

Definition stream_assist_request (query : string) : list (string * PyVal) :=
  [("query", PDict [("text", PStr query)]);
   ("answerGenerationMode", PStr "research")].

Definition stream_assist_url : string :=
  "https://discoveryengine.googleapis.com/v1alpha/projects/" +:+ project_id
  +:+ "/locations/" +:+ location
  +:+ "/collections/default_collection/engines/" +:+ engine_id
  +:+ "/assistants/" +:+ assistant_id +:+ ":streamAssist".

Definition of_environ (v : option string) : PyVal :=
  match v with
  | Some s => PStr s
  | None => PNone
  end.

Definition session_truthy (session : option string) : bool :=
  match session with
  | Some s => str_truthy s
  | None => false
  end.

(** [requests.post(...)]: the request goes on the wire, then the answer
    or the transport's exception comes back. *)
Definition post (req : HttpRequest) : io Response :=
  fun p => (requests_post rt req,
            {| environ := environ p; wire := wire p ++ [req] |}).

(** The body of the [try] block. *)
Definition get_deep_research_response_try
    (query : string) (start_new_session : bool) : io string :=
  headers ← lift get_auth_header;
  let headers := dict_setitem "X-Goog-User-Project" project_id headers in
  request ←
    (if negb start_new_session then
       session ← environ_get "SESSION";
       if session_truthy session then
         session' ← environ_get "SESSION";
         mret (dict_setitem "session" (of_environ session')
                 (stream_assist_request query))
       else mret (stream_assist_request query)
     else mret (stream_assist_request query));
  result ← post {| url := stream_assist_url;
                   data := json_dumps rt (PDict request);
                   headers := headers |};
  result_json ← lift (json_loads rt (text result));
  _ ← (if start_new_session then
         session ← lift (first ← getitem0 result_json;
                         info ← getitem first "sessionInfo";
                         getitem info "session");
         environ_setitem "SESSION" session
       else mret ());
  lift (process_deep_research_response result).

Definition get_deep_research_response
    (query : string) (start_new_session : bool) : io string :=
  fun p =>
    match get_deep_research_response_try query start_new_session p with
    | (Return v, p') => (Return v, p')
    | (Raise e, p') => (Raise (except_clauses e), p')
    end.

(** *** get_answer_response *)

(** The strings bound at module level: none. The module binds its
    imports, [mcp] and its functions; [project_id], [location] and
    [engine_id] are locals of the two tools. *)
Definition module_globals : list (string * string) := [].

(** Reading a name that is not a local of the running function. *)
Definition load_global (name : string) : py string :=
  match dict_get name module_globals with
  | Some v => Return v
  | None => Raise (NameError name)
  end.

(** The function has the single parameter [query] and no [try]: whatever
    is raised inside leaves it unchanged. *)
Definition get_answer_response (query : string) : py string :=
  location ← load_global "location";
  let client_options :=
    if negb (String.eqb location "global")
    then Some (location +:+ "-discoveryengine.googleapis.com")
    else None in
  _ ← ConversationalSearchServiceClient rt client_options;
  project_id ← load_global "project_id";
  location ← load_global "location";
  engine_id ← load_global "engine_id";
  let serving_config :=
    "projects/" +:+ project_id +:+ "/locations/" +:+ location
    +:+ "/collections/default_collection/engines/" +:+ engine_id
    +:+ "/servingConfigs/default_serving_config" in
  client_answer_query rt
    {| answer_serving_config := serving_config;
       answer_query_text := query;
       answer_session := None;
       rephraser_disable := false;
       max_rephrase_steps := 1;
       answer_model_version := "gemini-2.0-flash-001/answer_gen/v1";
       answer_preamble := "Give a detailed answer.";
       answer_include_citations := true;
       answer_language_code := "en" |}.

End Server.

(** ** Shapes of deep-research rows *)

(** [row['answer']['replies']]. *)
Definition replies_of (row : PyVal) : py PyVal :=
  answer ← getitem row "answer";
  getitem answer "replies".

(** [row['answer']['replies'][0]['groundedContent']['content']['text']]. *)
Definition first_reply_text (row : PyVal) : py PyVal :=
  replies ← replies_of row;
  reply ← getitem0 replies;
  reply_text reply.

(** A row whose replies are a list in which every reply carries a string
    at [groundedContent.content.text]; [texts] are those strings. *)
Definition well_formed_row (row : PyVal) (texts : list string) : Prop :=
  ∃ replies, replies_of row = Return (PList replies)
             ∧ Forall2 (fun reply t => reply_text reply = Return (PStr t))
                 replies texts.

(** A row object without the key [answer]. *)
Definition missing_answer (row : PyVal) : Prop :=
  ∃ entries, row = PDict entries ∧ dict_get "answer" entries = None.

(** The fragments as the report shows them: each followed by a newline. *)
Fixpoint lines (texts : list string) : string :=
  match texts with
  | [] => ""
  | t :: rest => (t +:+ LF) +:+ lines rest
  end.

(** ** A sample runtime *)

Module Sample.

Definition quote : string := String (Ascii.ascii_of_nat 34) EmptyString.

(** A serialiser for values whose strings need no escaping. *)
Fixpoint dumps (v : PyVal) : string :=
  match v with
  | PNone => "null"
  | PBool true => "true"
  | PBool false => "false"
  | PInt z => pretty z
  | PFloat literal => literal
  | PStr s => quote +:+ s +:+ quote
  | PList items =>
      "[" +:+ (fix go (l : list PyVal) : string :=
                 match l with
                 | [] => ""
                 | [x] => dumps x
                 | x :: r => dumps x +:+ ", " +:+ go r
                 end) items +:+ "]"
  | PDict entries =>
      "{" +:+ (fix go (l : list (string * PyVal)) : string :=
                 match l with
                 | [] => ""
                 | [(k, x)] => quote +:+ k +:+ quote +:+ ": " +:+ dumps x
                 | (k, x) :: r =>
                     quote +:+ k +:+ quote +:+ ": " +:+ dumps x +:+ ", " +:+ go r
                 end) entries +:+ "}"
  end.

Definition reply (t : string) : PyVal :=
  PDict [("groundedContent", PDict [("content", PDict [("text", PStr t)])])].

Definition row (replies : list PyVal) : PyVal :=
  PDict [("answer", PDict [("replies", PList replies)])].

Definition session_row (session : PyVal) (replies : list PyVal) : PyVal :=
  PDict [("sessionInfo", PDict [("session", session)]);
         ("answer", PDict [("replies", PList replies)])].

(** The documents the sample parser knows. *)
Definition documents : list PyVal :=
  [ PList [row [reply "X"]; row [reply "X"]];
    PList [row [reply "X"; reply "Y"]];
    PList [row [reply "A"; reply "B"]; PDict [("sessionInfo", PDict [])]];
    PList [row [reply "A"; PDict [("state", PStr "SUCCEEDED")]; reply "C"]];
    PList [session_row (PStr "sessions/42") [reply "A"]];
    PList [session_row (PInt 5) [reply "A"]];
    PList [] ].

Definition loads (s : string) : py PyVal :=
  match dict_get s (map (fun v => (dumps v, v)) documents) with
  | Some v => Return v
  | None => Raise (ForeignError DerivesValueError "JSONDecodeError"
                     "Expecting value: line 1 column 1 (char 0)")
  end.

Definition str (e : PyExc) : string :=
  match e with
  | KeyError (PStr k) => "'" +:+ k +:+ "'"
  | KeyError _ => "0"
  | IndexError => "list index out of range"
  | TypeError _ => "unsupported operand"
  | NameError n => "name '" +:+ n +:+ "' is not defined"
  | ValueError m => m
  | McpError _ m => m
  | ForeignError _ _ m => m
  end.

(** A runtime that answers every POST with [post] and every search with
    [search]. *)
Definition runtime (post : py Response) (search : py SearchResponse) : Runtime :=
  {| google_auth_token := Return "ya29.token";
     requests_post := fun _ => post;
     json_loads := loads;
     json_dumps := dumps;
     SearchServiceClient := fun _ => Return ();
     client_search := fun _ => search;
     ConversationalSearchServiceClient := fun _ => Return ();
     client_answer_query := fun _ => Return "answer";
     exc_str := str |}.

Definition answering (v : PyVal) : Runtime :=
  runtime (Return {| text := dumps v |}) (Return {| results := [] |}).

Definition offline : Runtime :=
  runtime (Raise (ForeignError DerivesException "ConnectionError"
                    "Max retries exceeded"))
          (Raise (ForeignError DerivesException "ServiceUnavailable"
                    "503 failed to connect"))  .

Definition searching (results : list SearchResult) : Runtime :=
  runtime (Return {| text := "" |}) (Return {| results := results |}).

Definition doc (derived : option (list (string * PyVal))) : SearchResult :=
  {| document := {| name := "projects/1/documents/a"; id := "a";
                    struct_data := None; derived_struct_data := derived |} |}.

Definition process (session : option string) : Process :=
  {| environ := match session with
                | Some s => {["SESSION" := s]}
                | None => ∅
                end;
     wire := [] |}.

End Sample.

(** ** The request of a deep-research call *)

(** [result_json[0]['sessionInfo']['session']]. *)
Definition session_path (result_json : PyVal) : py PyVal :=
  first ← getitem0 result_json;
  info ← getitem first "sessionInfo";
  getitem info "session".

(** The dictionary that is serialised: the literal, with the stored
    session added when a session is continued and the stored value is a
    non-empty string. *)
Definition outgoing_body
    (query : string) (start_new_session : bool) (p : Process)
  : list (string * PyVal) :=
  if start_new_session then stream_assist_request query
  else match environ p !! "SESSION" with
       | Some s =>
           if str_truthy s
           then dict_setitem "session" (PStr s) (stream_assist_request query)
           else stream_assist_request query
       | None => stream_assist_request query
       end.

(** The request handed to [requests.post] once the credentials gave
    [token]. *)
Definition outgoing_request
    (rt : Runtime) (query : string) (start_new_session : bool)
    (p : Process) (token : string) : HttpRequest :=
  {| url := stream_assist_url;
     data := json_dumps rt (PDict (outgoing_body query start_new_session p));
     headers := [("Authorization", "Bearer " +:+ token);
                 ("Content-Type", "application/json; charset=UTF-8");
                 ("X-Goog-User-Project", project_id)] |}.

(** The process once a request has gone out. *)
Definition after_post (req : HttpRequest) (p : Process) : Process :=
  {| environ := environ p; wire := wire p ++ [req] |}.

(** JSON values that are neither containers nor strings. *)
Definition is_scalar (v : PyVal) : bool :=
  match v with
  | PNone | PBool _ | PInt _ | PFloat _ => true
  | _ => false
  end.

Definition is_str (v : PyVal) : bool :=
  match v with
  | PStr _ => true
  | _ => false
  end.

(** The exceptions that subscripting, iterating and concatenating raise. *)
Definition lookup_error (e : PyExc) : bool :=
  match e with
  | KeyError _ | IndexError | TypeError _ => true
  | _ => false
  end.

(** ** More sample bodies *)

Module Cases.

Import Sample.

Definition error_body : PyVal :=
  PDict [("error", PDict [("code", PInt 403);
                          ("status", PStr "PERMISSION_DENIED")])].

Definition numbered_reply : PyVal :=
  PDict [("groundedContent", PDict [("content", PDict [("text", PInt 7)])])].

Definition documents : list PyVal :=
  [ error_body;
    PInt 7;
    PList [row [reply "A"; reply "B"]; row []; row [reply "C"]];
    PList [row [reply "A"]; PStr "keep-alive"; row [reply "B"]] ].

Definition loads (s : string) : py PyVal :=
  match dict_get s (map (fun v => (dumps v, v)) documents) with
  | Some v => Return v
  | None => Sample.loads s
  end.

Definition runtime (post : py Response) (search : py SearchResponse) : Runtime :=
  {| google_auth_token := Return "ya29.token";
     requests_post := fun _ => post;
     json_loads := loads;
     json_dumps := dumps;
     SearchServiceClient := fun _ => Return ();
     client_search := fun _ => search;
     ConversationalSearchServiceClient := fun _ => Return ();
     client_answer_query := fun _ => Return "answer";
     exc_str := str |}.

Definition answering (v : PyVal) : Runtime :=
  runtime (Return {| text := dumps v |}) (Return {| results := [] |}).

(** A runtime without credentials. *)
Definition unauthenticated : Runtime :=
  {| google_auth_token :=
       Raise (ForeignError DerivesException "DefaultCredentialsError"
                "Your default credentials were not found.");
     requests_post := fun _ => Return {| text := "[]" |};
     json_loads := loads;
     json_dumps := dumps;
     SearchServiceClient := fun _ => Return ();
     client_search := fun _ => Return {| results := [] |};
     ConversationalSearchServiceClient := fun _ => Return ();
     client_answer_query := fun _ => Return "answer";
     exc_str := str |}.

Definition environment (session : string) : Process :=
  {| environ := {["SESSION" := session; "HOME" := "/root"]};
     wire := [] |}.

End Cases.

Module Mixed.

Import Sample.

(** A well-formed row, a row whose second reply has no grounded content,
    and another well-formed row. *)
Definition rows : list PyVal :=
  [ row [reply "P"];
    row [reply "A"; PDict [("state", PStr "SUCCEEDED")]; reply "C"];
    row [reply "D"] ].

Definition loads (s : string) : py PyVal :=
  if String.eqb s (dumps (PList rows)) then Return (PList rows)
  else Cases.loads s.

Definition runtime : Runtime :=
  {| google_auth_token := Return "ya29.token";
     requests_post := fun _ => Return {| text := dumps (PList rows) |};
     json_loads := loads;
     json_dumps := dumps;
     SearchServiceClient := fun _ => Return ();
     client_search := fun _ => Return {| results := [] |};
     ConversationalSearchServiceClient := fun _ => Return ();
     client_answer_query := fun _ => Return "answer";
     exc_str := str |}.

End Mixed.

(** ** Properties *)

Section Properties.

Variable rt : Runtime.

(** Run the binds whose left operand is known. *)
Ltac run :=
  cbv beta iota delta [mbind py_bind mret py_ret io_bind io_ret lift];
  cbn [fst snd].

(** Case analysis on the answer to the request that is posted. *)
Tactic Notation "case_post" ident(result) :=
  match goal with
  | |- context [requests_post ?r ?req] =>
      let e := fresh "e" in
      destruct (requests_post r req) as [result|e]
  end.

(** *** Strings and lookups *)

Lemma append_assoc (a b c : string) : (a +:+ b) +:+ c = a +:+ (b +:+ c).
Proof.
  induction a as [|ch a IH]; [done |].
  change (String ch ((a +:+ b) +:+ c) = String ch (a +:+ b +:+ c)).
  by rewrite IH.
Qed.

Lemma append_empty_r (a : string) : a +:+ "" = a.
Proof.
  induction a as [|ch a IH]; [done |].
  change (String ch (a +:+ "") = String ch a). by rewrite IH.
Qed.

(** *** Well-formed strings pass through the environment unchanged *)

Lemma surrogate_at_continuation (b : Ascii.ascii) (rest : string) :
  is_continuation b = true → surrogate_at (String b rest) = None.
Proof.
  unfold is_continuation, between, surrogate_at. intros [_ H]%andb_prop.
  apply N.leb_le in H.
  destruct rest as [|b1 [|b2 rest]]; [done.. |].
  destruct (N.eqb_spec (Ascii.N_of_ascii b) 237) as [Heq|]; [lia | done].
Qed.

Lemma surrogate_at_head (s : string) (k : nat) :
  utf8_head s = S k → surrogate_at s = None.
Proof.
  destruct s as [|b0 [|b1 [|b2 rest]]]; [done.. |].
  unfold surrogate_at.
  destruct (N.eqb_spec (Ascii.N_of_ascii b0) 237) as [Heq|]; [|done].
  unfold utf8_head, sequence_length, second_byte_ok, between.
  rewrite Heq. cbn [N.leb N.eqb N.compare Pos.compare Pos.compare_cont
                    andb Pos.eqb].
  destruct (128 <=? Ascii.N_of_ascii b1)%N eqn:H1,
           (Ascii.N_of_ascii b1 <=? 159)%N eqn:H2,
           (160 <=? Ascii.N_of_ascii b1)%N eqn:H3; cbn [andb]; try done.
  apply N.leb_le in H2, H3. lia.
Qed.

Lemma fsencode_valid (s : string) :
  ∀ pending, valid_utf8_from pending s = true → fsencode_from 0 s = Return s.
Proof.
  induction s as [|b rest IH]; intros pending Hvalid; [done |].
  cbn [valid_utf8_from] in Hvalid. cbn [fsencode_from].
  destruct pending as [|k].
  - destruct (utf8_head (String b rest)) as [|k] eqn:Hhead; [done |].
    rewrite (surrogate_at_head _ _ Hhead). by rewrite (IH _ Hvalid).
  - apply andb_prop in Hvalid as [Hcont Hvalid].
    rewrite (surrogate_at_continuation _ _ Hcont). by rewrite (IH _ Hvalid).
Qed.

Lemma fsdecode_valid (s : string) :
  ∀ pending, valid_utf8_from pending s = true → fsdecode_from pending s = s.
Proof.
  induction s as [|b rest IH]; intros pending Hvalid; [done |].
  cbn [valid_utf8_from] in Hvalid. cbn [fsdecode_from].
  destruct pending as [|k].
  - destruct (utf8_head (String b rest)) as [|k]; [done |].
    by rewrite (IH _ Hvalid).
  - apply andb_prop in Hvalid as [_ Hvalid]. by rewrite (IH _ Hvalid).
Qed.

(** A string without a lone surrogate and without a null character is
    stored, and read back, as it is. *)
Lemma environ_value_valid (s : string) :
  valid_utf8 s = true → has_null_byte s = false → environ_value s = Return s.
Proof.
  intros Hvalid Hnull. unfold environ_value, fsencode, fsdecode.
  rewrite (fsencode_valid _ _ Hvalid).
  cbn [mbind py_bind mret py_ret]. rewrite Hnull.
  by rewrite (fsdecode_valid _ _ Hvalid).
Qed.

(** Assigning to [os.environ] stores what [environ_value] gives, or raises
    and changes nothing. *)
Lemma environ_setitem_outcome (key : string) (value : PyVal) (p : Process) :
  (∃ s stored, value = PStr s ∧ environ_value s = Return stored
     ∧ environ_setitem key value p
       = (Return (),
          {| environ := <[key := stored]> (environ p); wire := wire p |}))
  ∨ (∃ e, environ_setitem key value p = (Raise e, p)).
Proof.
  unfold environ_setitem.
  destruct value as [| | | |s| |]; try (right; by eexists).
  destruct (environ_value s) as [stored|e] eqn:Hvalue.
  - left. by exists s, stored.
  - right. by eexists.
Qed.

(** [MessageToDict] shows the derived data exactly when the field is set. *)
Lemma MessageToDict_derived (d : Document) :
  getitem (MessageToDict d) "derived_struct_data"
  = match derived_struct_data d with
    | Some s => Return (PDict s)
    | None => Raise (KeyError (PStr "derived_struct_data"))
    end.
Proof.
  unfold MessageToDict, getitem.
  destruct (str_truthy (name d)), (str_truthy (id d)),
    (struct_data d), (derived_struct_data d); reflexivity.
Qed.

(** *** get_search_response *)

(** C1. When the search answers with at least one result whose derived
    struct data holds a non-empty [extractive_answers] sequence, the tool
    returns the [content] field of the first extractive answer of the first
    result. *)
Theorem get_search_response_first_content
    (search_query : string) (response : SearchResponse)
    (result : SearchResult) (more : list SearchResult)
    (derived : list (string * PyVal))
    (answer : PyVal) (others : list PyVal) (content : PyVal) :
  SearchServiceClient rt client_options = Return () →
  client_search rt (search_request search_query) = Return response →
  results response = result :: more →
  derived_struct_data (document result) = Some derived →
  dict_get "extractive_answers" derived = Some (PList (answer :: others)) →
  getitem answer "content" = Return content →
  get_search_response rt search_query = Return content.
Proof.
  intros Hclient Hsearch Hresults Hderived Hanswers Hcontent.
  unfold get_search_response, get_search_response_try.
  rewrite Hclient; run. rewrite Hsearch; run.
  unfold results0. rewrite Hresults; run.
  rewrite MessageToDict_derived, Hderived; run.
  assert (getitem (PDict derived) "extractive_answers"
          = Return (PList (answer :: others))) as ->
    by (unfold getitem; by rewrite Hanswers).
  run. unfold getitem0; run. by rewrite Hcontent.
Qed.

(** C6. On an empty results sequence [results[0]] raises [IndexError],
    which enters the [except Exception] clause; there the positional call
    of [ErrorData] raises [TypeError], and that [TypeError], not an
    internal-error [McpError], is what the tool raises. *)
Theorem get_search_response_no_results
    (search_query : string) (response : SearchResponse) :
  SearchServiceClient rt client_options = Return () →
  client_search rt (search_request search_query) = Return response →
  results response = [] →
  get_search_response_try rt search_query = Raise IndexError
  ∧ get_search_response rt search_query
    = Raise (TypeError (PStr "BaseModel.__init__"))
  ∧ ∀ message,
      get_search_response rt search_query
      ≠ Raise (McpError INTERNAL_ERROR message).
Proof.
  intros Hclient Hsearch Hresults.
  assert (get_search_response_try rt search_query = Raise IndexError) as Htry.
  { unfold get_search_response_try.
    rewrite Hclient; run. rewrite Hsearch; run.
    unfold results0. by rewrite Hresults. }
  unfold get_search_response. rewrite Htry. by repeat split.
Qed.

(** *** process_deep_research_response *)

Lemma reply_line_text (reply : PyVal) (t : string) :
  reply_text reply = Return (PStr t) → reply_line reply = Return (t +:+ LF).
Proof. intros H. unfold reply_line. by rewrite H. Qed.

Lemma reply_line_no_text (reply : PyVal) (e : PyExc) :
  reply_text reply = Raise e → reply_line reply = Raise e.
Proof. intros H. unfold reply_line. by rewrite H. Qed.

(** A list of replies that all carry a text appends one line each. *)
Lemma replies_loop_texts (replies : list PyVal) (texts : list string) :
  Forall2 (fun reply t => reply_text reply = Return (PStr t)) replies texts →
  ∀ raw_text, replies_loop replies raw_text = (Return (), raw_text +:+ lines texts).
Proof.
  induction 1 as [|reply t replies texts Hreply _ IH]; intros raw_text.
  - cbn [replies_loop lines]. by rewrite append_empty_r.
  - cbn [replies_loop lines]. rewrite (reply_line_text _ _ Hreply), IH.
    by rewrite append_assoc.
Qed.

(** The loop stops at the first reply that raises, with the lines of the
    replies before it already in [raw_text]. *)
Lemma replies_loop_prefix
    (prefix : list PyVal) (texts : list string)
    (bad : PyVal) (rest : list PyVal) (e : PyExc) :
  Forall2 (fun reply t => reply_text reply = Return (PStr t)) prefix texts →
  reply_text bad = Raise e →
  ∀ raw_text,
    replies_loop (prefix ++ bad :: rest) raw_text
    = (Raise e, raw_text +:+ lines texts).
Proof.
  intros Hprefix Hbad.
  induction Hprefix as [|reply t prefix texts Hreply _ IH]; intros raw_text.
  - cbn [app replies_loop lines].
    by rewrite (reply_line_no_text _ _ Hbad), append_empty_r.
  - cbn [app replies_loop lines]. rewrite (reply_line_text _ _ Hreply), IH.
    by rewrite append_assoc.
Qed.

Lemma row_try_replies (row : PyVal) (replies : list PyVal) (raw_text : string) :
  replies_of row = Return (PList replies) →
  row_try row raw_text = replies_loop replies raw_text.
Proof.
  unfold replies_of, row_try.
  destruct (getitem row "answer") as [answer|e]; run; [|done].
  by intros ->.
Qed.

Lemma row_try_missing_answer (row : PyVal) (raw_text : string) :
  missing_answer row → snd (row_try row raw_text) = raw_text.
Proof.
  intros (entries & -> & Hnone). unfold row_try, getitem.
  by rewrite Hnone.
Qed.

(** A row never raises past its [try]; a row with exactly one reply that
    carries the text [X] appends the line of [X]. *)
Lemma row_try_single (row reply : PyVal) (X raw_text : string) :
  replies_of row = Return (PList [reply]) →
  first_reply_text row = Return (PStr X) →
  snd (row_try row raw_text) = raw_text +:+ (X +:+ LF).
Proof.
  intros Hreplies Hfirst.
  rewrite (row_try_replies _ _ _ Hreplies).
  unfold first_reply_text in Hfirst. rewrite Hreplies in Hfirst.
  cbn [mbind py_bind getitem0] in Hfirst.
  cbn [replies_loop]. by rewrite (reply_line_text _ _ Hfirst).
Qed.

Lemma rows_loop_single (rows : list PyVal) (X : string) :
  Forall (fun row => first_reply_text row = Return (PStr X)
                     ∧ ∃ reply, replies_of row = Return (PList [reply])) rows →
  ∀ raw_text,
    rows_loop rows raw_text = raw_text +:+ lines (replicate (length rows) X).
Proof.
  induction 1 as [|row rows [Hfirst [reply Hreplies]] _ IH]; intros raw_text.
  - cbn. by rewrite append_empty_r.
  - cbn [rows_loop length replicate lines].
    rewrite (row_try_single _ _ _ _ Hreplies Hfirst), IH.
    by rewrite append_assoc.
Qed.

(** C2, amended. When the body parses to an array in which every row has
    [answer.replies[0].groundedContent.content.text] equal to the string
    [X] and [answer.replies] holds exactly one reply, the report is the
    heading followed by the line of [X] once per row. *)
Theorem process_deep_research_response_single_reply_rows
    (response : Response) (rows : list PyVal) (X : string) :
  json_loads rt (text response) = Return (PList rows) →
  Forall (fun row => first_reply_text row = Return (PStr X)
                     ∧ ∃ reply, replies_of row = Return (PList [reply])) rows →
  process_deep_research_response rt response
  = Return (heading +:+ lines (replicate (length rows) X)).
Proof.
  intros Hloads Hrows. unfold process_deep_research_response.
  rewrite Hloads; run. cbn [py_iter]; run.
  by rewrite (rows_loop_single _ _ Hrows).
Qed.

(** C7. When the body parses to an array of one well-formed row and one
    row without the [answer] key, in either order, the report is the
    heading followed by the well-formed row's fragments: the other row adds
    nothing and nothing is raised. *)
Theorem process_deep_research_response_skips_row_without_answer
    (response : Response) (rows : list PyVal)
    (good bad : PyVal) (texts : list string) :
  json_loads rt (text response) = Return (PList rows) →
  rows = [good; bad] ∨ rows = [bad; good] →
  well_formed_row good texts →
  missing_answer bad →
  process_deep_research_response rt response
  = Return (heading +:+ lines texts).
Proof.
  intros Hloads Horder (replies & Hreplies & Htexts) Hbad.
  unfold process_deep_research_response.
  rewrite Hloads; run. cbn [py_iter]; run.
  destruct Horder as [-> | ->]; cbn [rows_loop].
  - rewrite (row_try_replies _ _ _ Hreplies), (replies_loop_texts _ _ Htexts).
    cbn [snd]. by rewrite (row_try_missing_answer _ _ Hbad).
  - rewrite (row_try_missing_answer _ _ Hbad).
    by rewrite (row_try_replies _ _ _ Hreplies), (replies_loop_texts _ _ Htexts).
Qed.

(** *** The except clauses *)

(** Both clauses call [ErrorData] with positional arguments, so whatever
    they catch they raise the same [TypeError]. *)
Lemma except_clauses_Exception (e : PyExc) :
  isinstance_Exception e = true →
  except_clauses rt e = TypeError (PStr "BaseModel.__init__").
Proof.
  intros H. unfold except_clauses. rewrite H.
  by destruct (isinstance_ValueError e).
Qed.

(** C3. In the two registered tools an exception deriving from
    [Exception] that is raised inside the [try] block is caught by one of
    the two clauses, and the clause's positional call of [ErrorData] raises
    [TypeError]: the tool raises that [TypeError], whether the exception
    was a [ValueError] or not, and never an [McpError] of either
    category. *)
Theorem registered_tools_handlers_raise_TypeError
    (query : string) (start_new_session : bool) (p : Process) (e : PyExc) :
  isinstance_Exception e = true →
  (get_search_response_try rt query = Raise e →
   get_search_response rt query
   = Raise (TypeError (PStr "BaseModel.__init__")))
  ∧ (fst (get_deep_research_response_try rt query start_new_session p) = Raise e →
     fst (get_deep_research_response rt query start_new_session p)
     = Raise (TypeError (PStr "BaseModel.__init__"))).
Proof.
  intros Hexc. split.
  - intros Htry. unfold get_search_response. rewrite Htry.
    by rewrite except_clauses_Exception.
  - unfold get_deep_research_response.
    destruct (get_deep_research_response_try rt query start_new_session p)
      as [[v|e'] p']; cbn [fst]; intros Htry; [done |].
    injection Htry as ->. by rewrite except_clauses_Exception.
Qed.

(** What leaves a handler is that [TypeError], or an exception that does
    not derive from [Exception] and was not caught. *)
Lemma except_clauses_cases (e : PyExc) :
  except_clauses rt e = TypeError (PStr "BaseModel.__init__")
  ∨ (except_clauses rt e = e ∧ isinstance_Exception e = false).
Proof.
  destruct (isinstance_Exception e) eqn:H.
  - left. by apply except_clauses_Exception.
  - right. split; [|done]. unfold except_clauses. rewrite H.
    destruct e as [| | | | | |[] cls msg]; done.
Qed.

(** *** get_deep_research_response *)

(** The handlers change the exception, never the process. *)
Lemma get_deep_research_response_process
    (query : string) (start_new_session : bool) (p : Process) :
  snd (get_deep_research_response rt query start_new_session p)
  = snd (get_deep_research_response_try rt query start_new_session p).
Proof.
  unfold get_deep_research_response.
  by destruct (get_deep_research_response_try rt query start_new_session p)
    as [[v|e] p'].
Qed.

Lemma get_deep_research_response_raises
    (query : string) (start_new_session : bool) (p : Process) (e : PyExc) :
  fst (get_deep_research_response rt query start_new_session p) = Raise e →
  ∃ e', fst (get_deep_research_response_try rt query start_new_session p)
        = Raise e'.
Proof.
  unfold get_deep_research_response.
  destruct (get_deep_research_response_try rt query start_new_session p)
    as [[v|e'] p']; cbn [fst]; [done | eauto].
Qed.

(** Once [json.loads] has given a list, the report is made without raising. *)
Lemma process_deep_research_response_list (response : Response) (rows : list PyVal) :
  json_loads rt (text response) = Return (PList rows) →
  process_deep_research_response rt response = Return (rows_loop rows heading).
Proof. intros H. unfold process_deep_research_response. by rewrite H. Qed.

(** A value whose element [0] can be subscripted by a string is a list. *)
Lemma session_path_list (result_json session : PyVal) :
  (first ← getitem0 result_json;
   info ← getitem first "sessionInfo";
   getitem info "session") = Return session →
  ∃ first rest, result_json = PList (first :: rest)
                ∧ (info ← getitem first "sessionInfo";
                   getitem info "session") = Return session.
Proof.
  destruct result_json as [| | | |s|items|entries]; try done.
  - by destruct s.
  - destruct items as [|first rest]; [done |]. run. cbn [getitem0]; run. eauto.
Qed.

(** C8. A call with [start_new_session=false] leaves the environment, and
    so the stored SESSION, as it found it. *)
Theorem get_deep_research_response_continue_keeps_environ
    (query : string) (p : Process) :
  environ (snd (get_deep_research_response rt query false p)) = environ p.
Proof.
  rewrite get_deep_research_response_process.
  unfold get_deep_research_response_try, get_auth_header, environ_get, post.
  cbn [negb]. run.
  destruct (google_auth_token rt) as [token|e]; run; [|done].
  destruct (session_truthy (environ p !! "SESSION")); run.
  all: case_post result; run; [|done].
  all: destruct (json_loads rt (text result)) as [result_json|e]; run; [|done].
  all: by destruct (process_deep_research_response rt result).
Qed.

(** C9. A call with [start_new_session=true] that raises leaves the
    environment, and so the stored SESSION, as it found it: a failed
    transport, a body that is not JSON, an empty array and a first element
    without [sessionInfo.session] all raise before the assignment, and a
    value the environment refuses is not stored. *)
Theorem get_deep_research_response_failure_keeps_environ
    (query : string) (p : Process) (e : PyExc) :
  fst (get_deep_research_response rt query true p) = Raise e →
  environ (snd (get_deep_research_response rt query true p)) = environ p.
Proof.
  intros [e' Hraise]%get_deep_research_response_raises.
  rewrite get_deep_research_response_process. revert Hraise.
  unfold get_deep_research_response_try, get_auth_header, post.
  cbn [negb]. run.
  destruct (google_auth_token rt) as [token|e0]; run; [|done].
  case_post result; run; [|done].
  destruct (json_loads rt (text result)) as [result_json|e0] eqn:Hloads;
    run; [|done].
  destruct (first ← getitem0 result_json;
            info ← getitem first "sessionInfo";
            getitem info "session") as [session|e0] eqn:Hsession.
  - apply session_path_list in Hsession as (first & rest & -> & Hpath).
    cbn [getitem0]. revert Hpath. run. intros ->. run.
    match goal with
    | |- context [environ_setitem ?k ?v ?q] =>
        destruct (environ_setitem_outcome k v q)
          as [(s & stored & _ & _ & ->) | (e0 & ->)]
    end; run; [|done].
    by rewrite (process_deep_research_response_list _ _ Hloads).
  - revert Hsession. run. by intros ->.
Qed.

(** C4, amended. When a call with [start_new_session=true] receives a body
    that parses to an array whose first element carries, at
    [sessionInfo.session], a string without a lone surrogate and without a
    null character, the call returns and SESSION then holds that string,
    whatever was stored before. *)
Theorem get_deep_research_response_new_session_stored
    (query token : string) (result : Response)
    (first : PyVal) (rest : list PyVal) (session : string) (p : Process) :
  google_auth_token rt = Return token →
  requests_post rt
    {| url := stream_assist_url;
       data := json_dumps rt (PDict (stream_assist_request query));
       headers := [("Authorization", "Bearer " +:+ token);
                   ("Content-Type", "application/json; charset=UTF-8");
                   ("X-Goog-User-Project", project_id)] |}
  = Return result →
  json_loads rt (text result) = Return (PList (first :: rest)) →
  (info ← getitem first "sessionInfo"; getitem info "session")
  = Return (PStr session) →
  valid_utf8 session = true →
  has_null_byte session = false →
  environ (snd (get_deep_research_response rt query true p)) !! "SESSION"
  = Some session
  ∧ fst (get_deep_research_response rt query true p)
    = Return (rows_loop (first :: rest) heading).
Proof.
  intros Hauth Hpost Hloads Hpath Hvalid Hnull.
  unfold get_deep_research_response, get_deep_research_response_try,
    get_auth_header, post.
  cbn [negb]. run. rewrite Hauth; run.
  cbn [dict_setitem String.eqb Ascii.eqb Bool.eqb].
  rewrite Hpost; run. rewrite Hloads; run.
  cbn [getitem0]. revert Hpath. run. intros ->. run.
  unfold environ_setitem. rewrite (environ_value_valid _ Hvalid Hnull); run.
  rewrite (process_deep_research_response_list _ _ Hloads). cbn [fst snd environ].
  split; [|done]. apply lookup_insert_eq.
Qed.

(** C5. When a call with [start_new_session=false] finds no SESSION in the
    environment, whatever it puts on the wire is the serialised request
    dictionary with the keys [query] and [answerGenerationMode] only: it
    has no [session] key. *)
Theorem get_deep_research_response_no_session_key
    (query : string) (p : Process) :
  environ p !! "SESSION" = None →
  dict_get "session" (stream_assist_request query) = None
  ∧ ∃ sent,
      wire (snd (get_deep_research_response rt query false p)) = (wire p ++ sent)%list
      ∧ Forall (fun req => data req
                           = json_dumps rt (PDict (stream_assist_request query)))
          sent.
Proof.
  intros Hnone. split; [done |].
  rewrite get_deep_research_response_process.
  destruct (google_auth_token rt) as [token|e] eqn:Hauth.
  2: { exists []. rewrite app_nil_r.
       unfold get_deep_research_response_try, get_auth_header.
       run. by rewrite Hauth. }
  exists [{| url := stream_assist_url;
              data := json_dumps rt (PDict (stream_assist_request query));
              headers := [("Authorization", "Bearer " +:+ token);
                          ("Content-Type", "application/json; charset=UTF-8");
                          ("X-Goog-User-Project", project_id)] |}].
  split; [|by repeat constructor].
  unfold get_deep_research_response_try, get_auth_header, environ_get, post.
  cbn [negb]. run. rewrite Hnone, Hauth. cbn [session_truthy]; run.
  case_post result; run; [|done].
  destruct (json_loads rt (text result)) as [result_json|e]; run; [|done].
  by destruct (process_deep_research_response rt result).
Qed.

(** With a non-empty SESSION stored, the same call sends it under the key
    [session]. *)
Lemma get_deep_research_response_sends_session
    (query session : string) (p : Process) :
  environ p !! "SESSION" = Some session →
  str_truthy session = true →
  ∃ sent,
    wire (snd (get_deep_research_response rt query false p)) = (wire p ++ sent)%list
    ∧ Forall (fun req =>
                ∃ request, data req = json_dumps rt (PDict request)
                           ∧ dict_get "session" request = Some (PStr session))
        sent.
Proof.
  intros Hsome Htruthy.
  rewrite get_deep_research_response_process.
  unfold get_deep_research_response_try, get_auth_header, environ_get, post.
  cbn [negb]. run. rewrite Hsome. cbn [session_truthy]. rewrite Htruthy; run.
  destruct (google_auth_token rt) as [token|e]; run.
  2: { exists []. by rewrite app_nil_r. }
  eexists [_]. split.
  - case_post result; run; [|done].
    destruct (json_loads rt (text result)) as [result_json|e]; run; [|done].
    by destruct (process_deep_research_response rt result).
  - repeat constructor. cbn [data].
    eexists; split; [reflexivity |]. by rewrite Hsome.
Qed.

(** The failures before the session is read: each makes a call with
    [start_new_session=true] raise. *)
Lemma get_deep_research_response_early_failures
    (query : string) (p : Process) :
  (∃ e, google_auth_token rt = Raise e)
  ∨ (∃ e, ∀ req, requests_post rt req = Raise e)
  ∨ (∃ result, (∀ req, requests_post rt req = Return result)
       ∧ ((∃ e, json_loads rt (text result) = Raise e)
          ∨ json_loads rt (text result) = Return (PList [])
          ∨ ∃ first rest e,
              json_loads rt (text result) = Return (PList (first :: rest))
              ∧ (info ← getitem first "sessionInfo"; getitem info "session")
                = Raise e)) →
  ∃ e, fst (get_deep_research_response rt query true p) = Raise e.
Proof.
  intros Hcase.
  unfold get_deep_research_response, get_deep_research_response_try,
    get_auth_header, post.
  cbn [negb]. run.
  destruct (google_auth_token rt) as [token|e0]; run; [|eauto].
  destruct Hcase as [[e He] | [[e He] | (result & Hpost & Hcase)]]; [done | |].
  { rewrite He; run. eauto. }
  rewrite Hpost; run.
  destruct Hcase as [[e He] | [Hempty | (first & rest & e & Hloads & Hpath)]].
  - rewrite He; run. eauto.
  - rewrite Hempty; run. cbn [getitem0]; run. eauto.
  - rewrite Hloads; run. cbn [getitem0]. revert Hpath. run. intros ->. run. eauto.
Qed.

(** The report of a continued session is the one
    [process_deep_research_response] makes of the body received. *)
Lemma get_deep_research_response_continue_report
    (query token : string) (result : Response) (rows : list PyVal) (p : Process) :
  google_auth_token rt = Return token →
  (∀ req, requests_post rt req = Return result) →
  json_loads rt (text result) = Return (PList rows) →
  fst (get_deep_research_response rt query false p)
  = Return (rows_loop rows heading).
Proof.
  intros Hauth Hpost Hloads.
  unfold get_deep_research_response, get_deep_research_response_try,
    get_auth_header, environ_get, post.
  cbn [negb]. run. rewrite Hauth; run.
  destruct (session_truthy (environ p !! "SESSION")); run.
  all: rewrite Hpost; run; rewrite Hloads; run.
  all: by rewrite (process_deep_research_response_list _ _ Hloads).
Qed.

End Properties.

(** ** The properties on the sample runtime *)

Import Sample.

Lemma get_search_response_first_content_witness :
  get_search_response
    (searching
       [doc (Some [("extractive_answers",
                    PList [PDict [("pageNumber", PStr "3");
                                  ("content", PStr "Wire fees are waived.")];
                           PDict [("content", PStr "Fees apply.")]])]);
        doc None])
    "wire fees"
  = Return (PStr "Wire fees are waived.").
Proof.
  eapply get_search_response_first_content; reflexivity.
Defined.

Lemma get_search_response_no_results_witness :
  get_search_response_try (searching []) "wire fees" = Raise IndexError
  ∧ get_search_response (searching []) "wire fees"
    = Raise (TypeError (PStr "BaseModel.__init__"))
  ∧ ∀ message,
      get_search_response (searching []) "wire fees"
      ≠ Raise (McpError INTERNAL_ERROR message).
Proof.
  exact (get_search_response_no_results (searching []) "wire fees"
           {| results := [] |} eq_refl eq_refl eq_refl).
Defined.

Lemma process_deep_research_response_single_reply_rows_witness :
  process_deep_research_response
    (answering (PList [row [reply "X"]; row [reply "X"]]))
    {| text := dumps (PList [row [reply "X"]; row [reply "X"]]) |}
  = Return (heading +:+ "X" +:+ LF +:+ "X" +:+ LF).
Proof.
  apply (process_deep_research_response_single_reply_rows
           (answering (PList [row [reply "X"]; row [reply "X"]]))
           {| text := dumps (PList [row [reply "X"]; row [reply "X"]]) |}
           [row [reply "X"]; row [reply "X"]] "X").
  - vm_compute. reflexivity.
  - repeat constructor; exists (reply "X"); reflexivity.
Defined.

(** C2 as stated fails on a row with a second reply: every row has
    [answer.replies[0].groundedContent.content.text] equal to ["X"], yet the
    report also holds the line of the second reply. *)
Lemma process_deep_research_response_second_reply_counterexample :
  let rows := [row [reply "X"; reply "Y"]] in
  let rt := answering (PList rows) in
  let response := {| text := dumps (PList rows) |} in
  json_loads rt (text response) = Return (PList rows)
  ∧ Forall (fun row => first_reply_text row = Return (PStr "X")) rows
  ∧ process_deep_research_response rt response
    = Return (heading +:+ "X" +:+ LF +:+ "Y" +:+ LF)
  ∧ process_deep_research_response rt response
    ≠ Return (heading +:+ lines (replicate (length rows) "X")).
Proof.
  cbv zeta. split; [vm_compute; reflexivity |].
  split; [repeat constructor |].
  split; [vm_compute; reflexivity |].
  vm_compute. discriminate.
Qed.

Lemma process_deep_research_response_skips_row_without_answer_witness :
  process_deep_research_response
    (answering (PList [row [reply "A"; reply "B"];
                       PDict [("sessionInfo", PDict [])]]))
    {| text := dumps (PList [row [reply "A"; reply "B"];
                             PDict [("sessionInfo", PDict [])]]) |}
  = Return (heading +:+ "A" +:+ LF +:+ "B" +:+ LF).
Proof.
  apply (process_deep_research_response_skips_row_without_answer
           (answering (PList [row [reply "A"; reply "B"];
                              PDict [("sessionInfo", PDict [])]]))
           {| text := dumps (PList [row [reply "A"; reply "B"];
                                    PDict [("sessionInfo", PDict [])]]) |}
           [row [reply "A"; reply "B"]; PDict [("sessionInfo", PDict [])]]
           (row [reply "A"; reply "B"]) (PDict [("sessionInfo", PDict [])])
           ["A"; "B"]).
  - vm_compute. reflexivity.
  - left. reflexivity.
  - exists [reply "A"; reply "B"]. split; [reflexivity |].
    repeat constructor.
  - exists [("sessionInfo", PDict [])]. split; reflexivity.
Defined.

Lemma registered_tools_handlers_raise_TypeError_witness :
  get_search_response offline "wire fees"
  = Raise (TypeError (PStr "BaseModel.__init__"))
  ∧ fst (get_deep_research_response
           (runtime (Return {| text := "<html>Bad Gateway</html>" |})
              (Return {| results := [] |}))
           "wire fees" false (process None))
    = Raise (TypeError (PStr "BaseModel.__init__")).
Proof.
  split.
  - apply (proj1 (registered_tools_handlers_raise_TypeError offline
                    "wire fees" false (process None)
                    (ForeignError DerivesException "ServiceUnavailable"
                       "503 failed to connect")
                    eq_refl)).
    reflexivity.
  - apply (proj2 (registered_tools_handlers_raise_TypeError
                    (runtime (Return {| text := "<html>Bad Gateway</html>" |})
                       (Return {| results := [] |}))
                    "wire fees" false (process None)
                    (ForeignError DerivesValueError "JSONDecodeError"
                       "Expecting value: line 1 column 1 (char 0)")
                    eq_refl)).
    vm_compute. reflexivity.
Defined.

(** [get_answer_response] has no handler at all: what is raised inside it
    leaves it as it is, here a [NameError]. *)
Lemma get_answer_response_unclassified_counterexample :
  get_answer_response offline "wire fees" = Raise (NameError "location")
  ∧ ¬ ∃ code message,
        get_answer_response offline "wire fees" = Raise (McpError code message).
Proof.
  split; [reflexivity |]. intros (code & message & H). discriminate H.
Qed.

Lemma get_deep_research_response_failure_keeps_environ_witness :
  fst (get_deep_research_response offline "wire fees" true
         (process (Some "sessions/41")))
  = Raise (TypeError (PStr "BaseModel.__init__"))
  ∧ environ (snd (get_deep_research_response offline "wire fees" true
                    (process (Some "sessions/41"))))
    = environ (process (Some "sessions/41")).
Proof.
  split; [vm_compute; reflexivity |].
  apply (get_deep_research_response_failure_keeps_environ offline
           "wire fees" (process (Some "sessions/41"))
           (TypeError (PStr "BaseModel.__init__"))).
  vm_compute. reflexivity.
Defined.

Lemma get_deep_research_response_new_session_stored_witness :
  environ (snd (get_deep_research_response
                  (answering (PList [session_row (PStr "sessions/42") [reply "A"]]))
                  "wire fees" true (process (Some "sessions/41"))))
    !! "SESSION"
  = Some "sessions/42".
Proof.
  apply (get_deep_research_response_new_session_stored
           (answering (PList [session_row (PStr "sessions/42") [reply "A"]]))
           "wire fees" "ya29.token"
           {| text := dumps (PList [session_row (PStr "sessions/42") [reply "A"]]) |}
           (session_row (PStr "sessions/42") [reply "A"]) [] "sessions/42"
           (process (Some "sessions/41"))).
  - reflexivity.
  - reflexivity.
  - vm_compute. reflexivity.
  - reflexivity.
  - reflexivity.
  - reflexivity.
Defined.

(** C4 as stated fails when [sessionInfo.session] is not a string: the
    assignment to [os.environ] raises [TypeError], the handler that catches
    it raises the [TypeError] of its own [ErrorData] call, and SESSION
    keeps its old value. *)
Lemma get_deep_research_response_number_session_counterexample :
  let first := session_row (PInt 5) [reply "A"] in
  let rt := answering (PList [first]) in
  let p := process (Some "sessions/41") in
  let out := get_deep_research_response rt "wire fees" true p in
  (∀ req, requests_post rt req = Return {| text := dumps (PList [first]) |})
  ∧ json_loads rt (dumps (PList [first])) = Return (PList [first])
  ∧ (first ← getitem0 (PList [first]);
     info ← getitem first "sessionInfo";
     getitem info "session") = Return (PInt 5)
  ∧ fst (get_deep_research_response_try rt "wire fees" true p)
    = Raise (TypeError (PInt 5))
  ∧ fst out = Raise (TypeError (PStr "BaseModel.__init__"))
  ∧ environ (snd out) !! "SESSION" = Some "sessions/41"
  ∧ of_environ (environ (snd out) !! "SESSION") ≠ PInt 5.
Proof.
  cbv zeta. repeat split; try (vm_compute; reflexivity).
  vm_compute. discriminate.
Qed.

Lemma get_deep_research_response_no_session_key_witness :
  dict_get "session" (stream_assist_request "wire fees") = None
  ∧ ∃ sent,
      wire (snd (get_deep_research_response (answering (PList []))
                   "wire fees" false (process None)))
      = (wire (process None) ++ sent)%list
      ∧ Forall (fun req =>
                  data req
                  = json_dumps (answering (PList []))
                      (PDict (stream_assist_request "wire fees")))
          sent.
Proof.
  apply (get_deep_research_response_no_session_key (answering (PList []))
           "wire fees" (process None)).
  reflexivity.
Defined.

(** ** Further properties of the module *)

Section Behaviour.

Variable rt : Runtime.

Ltac run :=
  cbv beta iota delta [mbind py_bind mret py_ret io_bind io_ret lift];
  cbn [fst snd].

(** *** The steps of a deep-research call *)

(** The [try] block of [get_deep_research_response], step by step. *)
Lemma get_deep_research_response_try_steps
    (query : string) (start_new_session : bool) (p : Process) :
  get_deep_research_response_try rt query start_new_session p
  = match google_auth_token rt with
    | Raise e => (Raise e, p)
    | Return token =>
        let req := outgoing_request rt query start_new_session p token in
        match requests_post rt req with
        | Raise e => (Raise e, after_post req p)
        | Return result =>
            match json_loads rt (text result) with
            | Raise e => (Raise e, after_post req p)
            | Return result_json =>
                if start_new_session then
                  match session_path result_json with
                  | Raise e => (Raise e, after_post req p)
                  | Return session =>
                      match environ_setitem "SESSION" session (after_post req p) with
                      | (Return _, p') =>
                          (process_deep_research_response rt result, p')
                      | (Raise e, p') => (Raise e, p')
                      end
                  end
                else (process_deep_research_response rt result, after_post req p)
            end
        end
    end.
Proof.
  unfold get_deep_research_response_try, get_auth_header, environ_get, post,
    outgoing_request, outgoing_body, after_post, session_path.
  run. destruct (google_auth_token rt) as [token|e]; run; [|done].
  cbn [dict_setitem String.eqb Ascii.eqb Bool.eqb].
  destruct start_new_session; cbn [negb]; run.
  - destruct (requests_post rt _) as [result|e]; run; [|done].
    destruct (json_loads rt (text result)) as [result_json|e]; run; [|done].
    destruct (getitem0 result_json) as [first|e]; run; [|done].
    destruct (getitem first "sessionInfo") as [info|e]; run; [|done].
    destruct (getitem info "session") as [session|e]; run; [|done].
    reflexivity.
  - destruct (environ p !! "SESSION") as [s|] eqn:Hs; cbn [session_truthy].
    + destruct (str_truthy s); run; rewrite ?Hs; cbn [of_environ].
      all: destruct (requests_post rt _) as [result|e]; run; [|done].
      all: by destruct (json_loads rt (text result)) as [result_json|e].
    + run. destruct (requests_post rt _) as [result|e]; run; [|done].
      by destruct (json_loads rt (text result)) as [result_json|e].
Qed.

Lemma get_deep_research_response_steps
    (query : string) (start_new_session : bool) (p : Process) :
  get_deep_research_response rt query start_new_session p
  = (match fst (get_deep_research_response_try rt query start_new_session p) with
     | Return v => Return v
     | Raise e => Raise (except_clauses rt e)
     end,
     snd (get_deep_research_response_try rt query start_new_session p)).
Proof.
  unfold get_deep_research_response.
  by destruct (get_deep_research_response_try rt query start_new_session p)
    as [[v|e] p'].
Qed.

(** *** Lookup errors *)

Lemma lookup_error_Exception (e : PyExc) :
  lookup_error e = true → isinstance_Exception e = true.
Proof. by destruct e. Qed.

Lemma getitem_raises (obj : PyVal) (key : string) (e : PyExc) :
  getitem obj key = Raise e → lookup_error e = true.
Proof.
  unfold getitem. destruct obj as [| | | | | |entries]; try by intros [= <-].
  destruct (dict_get key entries); [done | by intros [= <-]].
Qed.

Lemma getitem0_raises (obj : PyVal) (e : PyExc) :
  getitem0 obj = Raise e → lookup_error e = true.
Proof.
  unfold getitem0.
  destruct obj as [| | | |s|items|entries]; try by intros [= <-].
  - destruct s; [by intros [= <-] | done].
  - destruct items; [by intros [= <-] | done].
Qed.

Lemma py_iter_raises (obj : PyVal) (e : PyExc) :
  py_iter obj = Raise e → lookup_error e = true.
Proof. unfold py_iter. destruct obj; try done; by intros [= <-]. Qed.

Lemma session_path_raises (result_json : PyVal) (e : PyExc) :
  session_path result_json = Raise e → lookup_error e = true.
Proof.
  unfold session_path. run.
  destruct (getitem0 result_json) as [first|e0] eqn:H0;
    [|intros [= <-]; by eapply getitem0_raises].
  destruct (getitem first "sessionInfo") as [info|e0] eqn:H1;
    [|intros [= <-]; by eapply getitem_raises].
  by apply getitem_raises.
Qed.

(** *** What a deep-research call sends *)

(** X1. Once the credentials are there, a call hands exactly one request to
    [requests.post], whatever happens afterwards: to the streamAssist URL,
    with the bearer token, the content type and the user project as
    headers, and the serialised request dictionary as body. *)
Theorem get_deep_research_response_sends_one_request
    (query : string) (start_new_session : bool) (p : Process) (token : string) :
  google_auth_token rt = Return token →
  wire (snd (get_deep_research_response rt query start_new_session p))
  = (wire p ++ [outgoing_request rt query start_new_session p token])%list.
Proof.
  intros Hauth.
  rewrite get_deep_research_response_steps, get_deep_research_response_try_steps.
  rewrite Hauth. cbv zeta. cbn [snd].
  destruct (requests_post rt _) as [result|e]; [|done].
  destruct (json_loads rt (text result)) as [result_json|e]; [|done].
  destruct start_new_session; [|done].
  destruct (session_path result_json) as [session|e]; [|done].
  destruct (environ_setitem_outcome "SESSION" session
              (after_post (outgoing_request rt query true p token) p))
    as [(s & stored & _ & _ & ->) | (e & ->)]; done.
Qed.

(** X2. When the credentials cannot be obtained, the handler that catches
    the exception raises the [TypeError] of its [ErrorData] call, and the
    process is left as it was: nothing is sent and the environment is not
    touched. *)
Theorem get_deep_research_response_without_credentials
    (query : string) (start_new_session : bool) (p : Process) (e : PyExc) :
  google_auth_token rt = Raise e →
  isinstance_Exception e = true →
  get_deep_research_response_try rt query start_new_session p = (Raise e, p)
  ∧ get_deep_research_response rt query start_new_session p
    = (Raise (TypeError (PStr "BaseModel.__init__")), p).
Proof.
  intros Hauth Hexc.
  rewrite get_deep_research_response_steps, get_deep_research_response_try_steps.
  rewrite Hauth. cbn [fst snd]. by rewrite (except_clauses_Exception _ _ Hexc).
Qed.

(** X3. A call that starts a new session does not send the stored session:
    its body is the serialised literal dictionary, without a [session]
    key, whatever SESSION holds. *)
Theorem get_deep_research_response_new_session_sends_no_session
    (query : string) (p : Process) (token : string) :
  google_auth_token rt = Return token →
  ∃ req,
    wire (snd (get_deep_research_response rt query true p))
    = (wire p ++ [req])%list
    ∧ data req = json_dumps rt (PDict (stream_assist_request query))
    ∧ dict_get "session" (stream_assist_request query) = None.
Proof.
  intros Hauth. exists (outgoing_request rt query true p token).
  split; [|done].
  rewrite get_deep_research_response_steps, get_deep_research_response_try_steps.
  rewrite Hauth. cbv zeta. cbn [snd].
  destruct (requests_post rt _) as [result|e]; [|done].
  destruct (json_loads rt (text result)) as [result_json|e]; [|done].
  destruct (session_path result_json) as [session|e]; [|done].
  destruct (environ_setitem_outcome "SESSION" session
              (after_post (outgoing_request rt query true p token) p))
    as [(s & stored & _ & _ & ->) | (e & ->)]; done.
Qed.

(** X5. A stored SESSION that is the empty string counts as no session:
    the continued call sends the literal dictionary without a [session]
    key. *)
Theorem get_deep_research_response_empty_session_not_sent
    (query : string) (p : Process) (token : string) :
  google_auth_token rt = Return token →
  environ p !! "SESSION" = Some "" →
  ∃ req,
    wire (snd (get_deep_research_response rt query false p))
    = (wire p ++ [req])%list
    ∧ data req = json_dumps rt (PDict (stream_assist_request query))
    ∧ dict_get "session" (stream_assist_request query) = None.
Proof.
  intros Hauth Hempty. exists (outgoing_request rt query false p token).
  split; [|split; [|done]].
  - rewrite get_deep_research_response_steps, get_deep_research_response_try_steps.
    rewrite Hauth. cbv zeta. cbn [snd].
    destruct (requests_post rt _) as [result|e]; [|done].
    by destruct (json_loads rt (text result)) as [result_json|e].
  - unfold outgoing_request, outgoing_body. by rewrite Hempty.
Qed.

(** X6. No call writes an environment variable other than SESSION. *)
Theorem get_deep_research_response_writes_only_SESSION
    (query : string) (start_new_session : bool) (p : Process) (key : string) :
  key ≠ "SESSION" →
  environ (snd (get_deep_research_response rt query start_new_session p)) !! key
  = environ p !! key.
Proof.
  intros Hkey.
  rewrite get_deep_research_response_steps, get_deep_research_response_try_steps.
  cbn [snd]. destruct (google_auth_token rt) as [token|e]; [|done]. cbv zeta.
  destruct (requests_post rt _) as [result|e]; [|done].
  destruct (json_loads rt (text result)) as [result_json|e]; [|done].
  destruct start_new_session; [|done].
  destruct (session_path result_json) as [session|e]; [|done].
  destruct (environ_setitem_outcome "SESSION" session
              (after_post (outgoing_request rt query true p token) p))
    as [(s & stored & _ & _ & ->) | (e & ->)]; [|done].
  cbn [snd environ after_post]. by rewrite lookup_insert_ne.
Qed.

(** X7. The session round trip: after a call that started a new session
    and received a non-empty session string without a lone surrogate and
    without a null character, the next continued call sends that very
    string under the key [session]. *)
Theorem get_deep_research_response_session_round_trip
    (query next_query token : string) (result : Response)
    (first : PyVal) (rest : list PyVal) (session : string) (p : Process) :
  google_auth_token rt = Return token →
  requests_post rt (outgoing_request rt query true p token) = Return result →
  json_loads rt (text result) = Return (PList (first :: rest)) →
  session_path (PList (first :: rest)) = Return (PStr session) →
  valid_utf8 session = true →
  has_null_byte session = false →
  str_truthy session = true →
  let p1 := snd (get_deep_research_response rt query true p) in
  ∃ req,
    wire (snd (get_deep_research_response rt next_query false p1))
    = (wire p1 ++ [req])%list
    ∧ data req
      = json_dumps rt (PDict (dict_setitem "session" (PStr session)
                                (stream_assist_request next_query))).
Proof.
  intros Hauth Hpost Hloads Hpath Hvalid Hnull Htruthy p1.
  assert (environ p1 !! "SESSION" = Some session) as Hstored.
  { unfold p1.
    rewrite get_deep_research_response_steps, get_deep_research_response_try_steps.
    rewrite Hauth. cbv zeta. rewrite Hpost, Hloads, Hpath.
    unfold environ_setitem. rewrite (environ_value_valid _ Hvalid Hnull).
    cbn [snd environ]. apply lookup_insert_eq. }
  exists (outgoing_request rt next_query false p1 token). split.
  - rewrite get_deep_research_response_steps, get_deep_research_response_try_steps.
    rewrite Hauth. cbv zeta. cbn [snd].
    destruct (requests_post rt (outgoing_request rt next_query false p1 token))
      as [result'|e]; [|done].
    by destruct (json_loads rt (text result')) as [result_json|e].
  - unfold outgoing_request, outgoing_body. cbn [data].
    by rewrite Hstored, Htruthy.
Qed.

(** *** Bodies that are not an array of rows *)

(** X8. When [json.loads] rejects the body (its [JSONDecodeError] is a
    [ValueError], so the first clause catches it), the call raises the
    [TypeError] of that clause's [ErrorData] call, in either mode, after
    the request was sent and with the environment as it was. *)
Theorem get_deep_research_response_undecodable_body
    (query : string) (start_new_session : bool) (p : Process)
    (token : string) (result : Response) (e : PyExc) :
  google_auth_token rt = Return token →
  requests_post rt (outgoing_request rt query start_new_session p token)
  = Return result →
  json_loads rt (text result) = Raise e →
  isinstance_ValueError e = true →
  get_deep_research_response_try rt query start_new_session p
  = (Raise e, after_post (outgoing_request rt query start_new_session p token) p)
  ∧ get_deep_research_response rt query start_new_session p
    = (Raise (TypeError (PStr "BaseModel.__init__")),
       after_post (outgoing_request rt query start_new_session p token) p).
Proof.
  intros Hauth Hpost Hloads Hvalue.
  rewrite get_deep_research_response_steps, get_deep_research_response_try_steps.
  rewrite Hauth. cbv zeta. rewrite Hpost, Hloads. cbn [fst snd].
  split; [done |]. unfold except_clauses. by rewrite Hvalue.
Qed.

(** X9. When a new session is asked for and the session cannot be read off
    the body (an empty array, an object, a first element without
    [sessionInfo.session]), the lookup's exception is caught and the call
    raises the [TypeError] of the handler's [ErrorData] call; the
    environment stays as it was. *)
Theorem get_deep_research_response_unreadable_session
    (query : string) (p : Process) (token : string)
    (result : Response) (result_json : PyVal) (e : PyExc) :
  google_auth_token rt = Return token →
  requests_post rt (outgoing_request rt query true p token) = Return result →
  json_loads rt (text result) = Return result_json →
  session_path result_json = Raise e →
  get_deep_research_response_try rt query true p
  = (Raise e, after_post (outgoing_request rt query true p token) p)
  ∧ get_deep_research_response rt query true p
    = (Raise (TypeError (PStr "BaseModel.__init__")),
       after_post (outgoing_request rt query true p token) p).
Proof.
  intros Hauth Hpost Hloads Hpath.
  rewrite get_deep_research_response_steps, get_deep_research_response_try_steps.
  rewrite Hauth. cbv zeta. rewrite Hpost, Hloads, Hpath. cbn [fst snd].
  split; [done |].
  by rewrite (except_clauses_Exception _ _
                (lookup_error_Exception _ (session_path_raises _ _ Hpath))).
Qed.

Lemma row_try_unreadable (row : PyVal) (e : PyExc) (raw_text : string) :
  replies_of row = Raise e → row_try row raw_text = (Raise e, raw_text).
Proof.
  unfold replies_of, row_try. run.
  destruct (getitem row "answer") as [answer|e0]; [|by intros [= ->]].
  by intros ->.
Qed.

Lemma rows_loop_unreadable (rows : list PyVal) :
  Forall (fun row => ∃ e, replies_of row = Raise e) rows →
  ∀ raw_text, rows_loop rows raw_text = raw_text.
Proof.
  induction 1 as [|row rows [e He] _ IH]; intros raw_text; [done |].
  cbn [rows_loop]. by rewrite (row_try_unreadable _ _ _ He), IH.
Qed.

Lemma str_chars_unreadable (s : string) :
  Forall (fun row => ∃ e, replies_of row = Raise e) (str_chars s).
Proof. induction s as [|c s IH]; constructor; [by eexists | done]. Qed.

Lemma dict_keys_unreadable (entries : list (string * PyVal)) :
  Forall (fun row => ∃ e, replies_of row = Raise e)
    (map (fun kv => PStr (fst kv)) entries).
Proof. induction entries as [|kv entries IH]; constructor; [by eexists | done]. Qed.

(** X10. When a session is continued and the body parses to an empty
    array, to an object (such as an error object) or to a string, the call
    returns the bare heading: no row is found and nothing is raised. *)
Theorem get_deep_research_response_body_without_rows
    (query : string) (p : Process) (token : string)
    (result : Response) (result_json : PyVal) :
  google_auth_token rt = Return token →
  requests_post rt (outgoing_request rt query false p token) = Return result →
  json_loads rt (text result) = Return result_json →
  result_json = PList []
  ∨ (∃ entries, result_json = PDict entries)
  ∨ (∃ s, result_json = PStr s) →
  get_deep_research_response rt query false p
  = (Return heading, after_post (outgoing_request rt query false p token) p).
Proof.
  intros Hauth Hpost Hloads Hshape.
  rewrite get_deep_research_response_steps, get_deep_research_response_try_steps.
  rewrite Hauth. cbv zeta. rewrite Hpost, Hloads.
  unfold process_deep_research_response. rewrite Hloads. run.
  destruct Hshape as [-> | [[entries ->] | [s ->]]]; cbn [py_iter fst snd].
  - done.
  - by rewrite (rows_loop_unreadable _ (dict_keys_unreadable entries)).
  - by rewrite (rows_loop_unreadable _ (str_chars_unreadable s)).
Qed.

(** X11. A body that parses to a number, a boolean or null cannot be
    iterated nor subscripted: the [try] block raises the [TypeError] on
    that value, in either mode, and the call raises the [TypeError] of the
    handler's [ErrorData] call. *)
Theorem get_deep_research_response_scalar_body
    (query : string) (start_new_session : bool) (p : Process)
    (token : string) (result : Response) (result_json : PyVal) :
  google_auth_token rt = Return token →
  requests_post rt (outgoing_request rt query start_new_session p token)
  = Return result →
  json_loads rt (text result) = Return result_json →
  is_scalar result_json = true →
  get_deep_research_response_try rt query start_new_session p
  = (Raise (TypeError result_json),
     after_post (outgoing_request rt query start_new_session p token) p)
  ∧ get_deep_research_response rt query start_new_session p
    = (Raise (TypeError (PStr "BaseModel.__init__")),
       after_post (outgoing_request rt query start_new_session p token) p).
Proof.
  intros Hauth Hpost Hloads Hscalar.
  rewrite get_deep_research_response_steps, get_deep_research_response_try_steps.
  rewrite Hauth. cbv zeta. rewrite Hpost, Hloads.
  unfold process_deep_research_response. rewrite Hloads. run.
  destruct start_new_session, result_json; try done.
Qed.

(** X4. A continued call with a non-empty SESSION stored sends exactly
    one request, whose body is the literal dictionary with the stored
    string added under the key [session]. *)
Theorem get_deep_research_response_continues_stored_session
    (query : string) (p : Process) (token session : string) :
  google_auth_token rt = Return token →
  environ p !! "SESSION" = Some session →
  str_truthy session = true →
  ∃ req,
    wire (snd (get_deep_research_response rt query false p))
    = (wire p ++ [req])%list
    ∧ data req
      = json_dumps rt (PDict (dict_setitem "session" (PStr session)
                                (stream_assist_request query))).
Proof.
  intros Hauth Hstored Htruthy.
  exists (outgoing_request rt query false p token). split.
  - rewrite get_deep_research_response_steps, get_deep_research_response_try_steps.
    rewrite Hauth. cbv zeta. cbn [snd].
    destruct (requests_post rt (outgoing_request rt query false p token))
      as [result|e]; [|done].
    by destruct (json_loads rt (text result)) as [result_json|e].
  - unfold outgoing_request, outgoing_body. cbn [data].
    by rewrite Hstored, Htruthy.
Qed.

(** *** The report *)

Lemma lines_app (xs ys : list string) :
  lines (xs ++ ys) = lines xs +:+ lines ys.
Proof.
  induction xs as [|x xs IH]; [done |].
  change (lines ((x :: xs) ++ ys)) with ((x +:+ LF) +:+ lines (xs ++ ys)).
  change (lines (x :: xs)) with ((x +:+ LF) +:+ lines xs).
  by rewrite IH, !append_assoc.
Qed.

(** What a loop appends does not depend on what [raw_text] holds. *)
Lemma replies_loop_shift (replies : list PyVal) :
  ∀ raw_text,
    replies_loop replies raw_text
    = (fst (replies_loop replies ""), raw_text +:+ snd (replies_loop replies "")).
Proof.
  induction replies as [|reply rest IH]; intros raw_text.
  - cbn [replies_loop fst snd]. by rewrite append_empty_r.
  - cbn [replies_loop]. destruct (reply_line reply) as [line|e]; cbn [fst snd].
    + rewrite (IH (raw_text +:+ line)), (IH ("" +:+ line)). cbn [fst snd].
      change ("" +:+ line) with line. by rewrite append_assoc.
    + by rewrite append_empty_r.
Qed.

Lemma row_try_shift (row : PyVal) (raw_text : string) :
  row_try row raw_text
  = (fst (row_try row ""), raw_text +:+ snd (row_try row "")).
Proof.
  unfold row_try. run.
  destruct (getitem row "answer") as [answer|e];
    [|cbn [fst snd]; by rewrite append_empty_r].
  destruct (getitem answer "replies") as [replies|e];
    [|cbn [fst snd]; by rewrite append_empty_r].
  destruct (py_iter replies) as [items|e];
    [|cbn [fst snd]; by rewrite append_empty_r].
  apply replies_loop_shift.
Qed.

Lemma rows_loop_shift (rows : list PyVal) :
  ∀ raw_text, rows_loop rows raw_text = raw_text +:+ rows_loop rows "".
Proof.
  induction rows as [|row rows IH]; intros raw_text.
  - cbn [rows_loop]. by rewrite append_empty_r.
  - cbn [rows_loop]. rewrite (row_try_shift row raw_text). cbn [snd].
    rewrite (IH (raw_text +:+ _)), (IH (snd (row_try row ""))).
    by rewrite append_assoc.
Qed.

Lemma process_deep_research_response_prefix (response : Response) (report : string) :
  process_deep_research_response rt response = Return report →
  ∃ fragments, report = heading +:+ fragments.
Proof.
  unfold process_deep_research_response. run.
  destruct (json_loads rt (text response)) as [text_json|e]; [|done].
  destruct (py_iter text_json) as [rows|e]; [|done].
  intros [= <-]. exists (rows_loop rows ""). apply rows_loop_shift.
Qed.

(** X12. Whatever a deep-research call returns begins with the heading
    line ["# Reserach Plan"]. *)
Theorem get_deep_research_response_report_begins_with_heading
    (query : string) (start_new_session : bool) (p : Process) (report : string) :
  fst (get_deep_research_response rt query start_new_session p) = Return report →
  ∃ fragments, report = heading +:+ fragments.
Proof.
  rewrite get_deep_research_response_steps, get_deep_research_response_try_steps.
  cbn [fst]. destruct (google_auth_token rt) as [token|e]; [|done]. cbv zeta.
  destruct (requests_post rt _) as [result|e]; [|done].
  destruct (json_loads rt (text result)) as [result_json|e]; [|done].
  assert (∀ p' : Process,
            match fst (process_deep_research_response rt result, p') with
                | Return v => Return v
                | Raise e => Raise (except_clauses rt e)
                end = Return report →
                ∃ fragments, report = heading +:+ fragments) as Hreport.
  { intros p'. cbn [fst].
    destruct (process_deep_research_response rt result) as [v|e] eqn:Hv; [|done].
    intros [= <-]. by eapply process_deep_research_response_prefix. }
  destruct start_new_session; [|by apply Hreport].
  destruct (session_path result_json) as [session|e]; [|done].
  destruct (environ_setitem_outcome "SESSION" session
              (after_post (outgoing_request rt query true p token) p))
    as [(s & stored & _ & _ & ->) | (e & ->)]; [by apply Hreport | done].
Qed.

(** X13. The fragments of an array are those of its parts, one after the
    other: what a row appends does not depend on the rows before it. *)
Theorem rows_loop_app (rows1 rows2 : list PyVal) (raw_text : string) :
  rows_loop (rows1 ++ rows2) raw_text
  = rows_loop rows1 raw_text +:+ rows_loop rows2 "".
Proof.
  revert raw_text. induction rows1 as [|row rows1 IH]; intros raw_text.
  - cbn [app rows_loop]. apply rows_loop_shift.
  - cbn [app rows_loop]. apply IH.
Qed.

Lemma rows_loop_well_formed (rows : list PyVal) (texts : list (list string)) :
  Forall2 well_formed_row rows texts →
  ∀ raw_text, rows_loop rows raw_text = raw_text +:+ lines (concat texts).
Proof.
  induction 1 as [|row ts rows texts (replies & Hreplies & Hts) _ IH];
    intros raw_text.
  - cbn [rows_loop concat lines]. by rewrite append_empty_r.
  - cbn [rows_loop concat]. rewrite (row_try_replies _ _ _ Hreplies).
    rewrite (replies_loop_texts _ _ Hts). cbn [snd].
    by rewrite IH, lines_app, append_assoc.
Qed.

(** X14. When the body parses to an array of well-formed rows, the report
    is the heading followed by one line per reply, rows in the array's
    order and replies in each row's order. *)
Theorem process_deep_research_response_well_formed_rows
    (response : Response) (rows : list PyVal) (texts : list (list string)) :
  json_loads rt (text response) = Return (PList rows) →
  Forall2 well_formed_row rows texts →
  process_deep_research_response rt response
  = Return (heading +:+ lines (concat texts)).
Proof.
  intros Hloads Hrows. unfold process_deep_research_response.
  rewrite Hloads. run. cbn [py_iter]. run.
  by rewrite (rows_loop_well_formed _ _ Hrows).
Qed.

(** X15. A row whose [answer.replies] cannot be read (the row is not an
    object, or a key is missing) adds nothing wherever it stands in the
    array: the report is that of the array without it. *)
Theorem rows_loop_skips_unreadable_row
    (before after : list PyVal) (row : PyVal) (e : PyExc) (raw_text : string) :
  replies_of row = Raise e →
  rows_loop (before ++ row :: after) raw_text
  = rows_loop (before ++ after) raw_text.
Proof.
  intros Hrow. revert raw_text.
  induction before as [|r before IH]; intros raw_text.
  - cbn [app rows_loop]. by rewrite (row_try_unreadable _ _ _ Hrow).
  - cbn [app rows_loop]. apply IH.
Qed.

Lemma replies_loop_stops
    (prefix : list PyVal) (texts : list string)
    (bad : PyVal) (rest : list PyVal) (e : PyExc) :
  Forall2 (fun reply t => reply_text reply = Return (PStr t)) prefix texts →
  reply_line bad = Raise e →
  ∀ raw_text,
    replies_loop (prefix ++ bad :: rest) raw_text
    = (Raise e, raw_text +:+ lines texts).
Proof.
  intros Hprefix Hbad.
  induction Hprefix as [|reply t prefix texts Hreply _ IH]; intros raw_text.
  - cbn [app replies_loop lines]. by rewrite Hbad, append_empty_r.
  - cbn [app replies_loop lines]. rewrite (reply_line_text _ _ Hreply), IH.
    by rewrite append_assoc.
Qed.

(** X16. A reply whose [text] is present but not a string (a number,
    null, an object) ends its row like a reply without the path: the lines
    before it stay, the [TypeError] of the concatenation is dropped and the
    loop goes on with the next row. *)
Theorem row_stops_at_text_that_is_not_a_string
    (row : PyVal) (prefix : list PyVal) (texts : list string)
    (bad : PyVal) (rest : list PyVal) (v : PyVal)
    (more : list PyVal) (raw_text : string) :
  replies_of row = Return (PList (prefix ++ bad :: rest)) →
  Forall2 (fun reply t => reply_text reply = Return (PStr t)) prefix texts →
  reply_text bad = Return v →
  is_str v = false →
  row_try row raw_text = (Raise (TypeError v), raw_text +:+ lines texts)
  ∧ rows_loop (row :: more) raw_text
    = rows_loop more (raw_text +:+ lines texts).
Proof.
  intros Hreplies Hprefix Hbad Hv.
  assert (reply_line bad = Raise (TypeError v)) as Hline.
  { unfold reply_line. rewrite Hbad. by destruct v. }
  assert (row_try row raw_text = (Raise (TypeError v), raw_text +:+ lines texts))
    as Hrow.
  { rewrite (row_try_replies _ _ _ Hreplies). by apply replies_loop_stops. }
  split; [done |]. cbn [rows_loop]. by rewrite Hrow.
Qed.

Lemma rows_loop_after (before after : list PyVal) :
  ∀ raw_text,
    rows_loop (before ++ after) raw_text
    = rows_loop after (rows_loop before raw_text).
Proof.
  induction before as [|row before IH]; intros raw_text; [done |].
  cbn [app rows_loop]. apply IH.
Qed.

(** C10. When a row's replies are a well-formed prefix followed by a reply
    without the [groundedContent.content.text] path, the report that
    [process_deep_research_response] returns holds, between what the rows
    before and the rows after contribute, exactly the fragments of that
    prefix: they are kept, the replies from the malformed one onward add
    nothing, and the exception ends the row only. *)
Theorem process_deep_research_response_keeps_fragments_before_malformed_reply
    (response : Response) (before after : list PyVal) (row : PyVal)
    (prefix : list PyVal) (texts : list string)
    (bad : PyVal) (rest : list PyVal) (e : PyExc) :
  json_loads rt (text response) = Return (PList (before ++ row :: after)) →
  replies_of row = Return (PList (prefix ++ bad :: rest)) →
  Forall2 (fun reply t => reply_text reply = Return (PStr t)) prefix texts →
  reply_text bad = Raise e →
  process_deep_research_response rt response
  = Return (rows_loop before heading +:+ lines texts +:+ rows_loop after "")
  ∧ ∀ raw_text, row_try row raw_text = (Raise e, raw_text +:+ lines texts).
Proof.
  intros Hloads Hreplies Hprefix Hbad.
  assert (∀ raw_text, row_try row raw_text = (Raise e, raw_text +:+ lines texts))
    as Hrow.
  { intros raw_text. rewrite (row_try_replies _ _ _ Hreplies).
    by apply replies_loop_prefix. }
  split; [|done].
  unfold process_deep_research_response. rewrite Hloads. run.
  cbn [py_iter]. run. rewrite rows_loop_after. cbn [rows_loop].
  rewrite Hrow. cbn [snd]. rewrite rows_loop_shift.
  by rewrite append_assoc.
Qed.

(** *** get_search_response, once the search has answered *)

(** X17. When the first result carries no extractive answer (no derived
    struct data, no [extractive_answers] key, or an empty sequence), the
    lookup raises, the results after the first are not consulted, and the
    tool raises the [TypeError] of the handler's [ErrorData] call. *)
Theorem get_search_response_first_result_without_answer
    (search_query : string) (response : SearchResponse)
    (result : SearchResult) (more : list SearchResult) (e : PyExc) :
  SearchServiceClient rt client_options = Return () →
  client_search rt (search_request search_query) = Return response →
  results response = result :: more →
  (derived_struct_data (document result) = None
   ∧ e = KeyError (PStr "derived_struct_data"))
  ∨ (∃ derived, derived_struct_data (document result) = Some derived
       ∧ ((dict_get "extractive_answers" derived = None
           ∧ e = KeyError (PStr "extractive_answers"))
          ∨ (dict_get "extractive_answers" derived = Some (PList [])
             ∧ e = IndexError))) →
  get_search_response_try rt search_query = Raise e
  ∧ get_search_response rt search_query
    = Raise (TypeError (PStr "BaseModel.__init__")).
Proof.
  intros Hclient Hsearch Hresults Hcase.
  assert (get_search_response_try rt search_query = Raise e) as Htry.
  { unfold get_search_response_try.
    rewrite Hclient; run. rewrite Hsearch; run.
    unfold results0. rewrite Hresults; run.
    rewrite MessageToDict_derived.
    destruct Hcase as [[-> ->] | (derived & -> & [[Hnone ->] | [Hempty ->]])];
      run; [done | |].
    - unfold getitem at 1. by rewrite Hnone.
    - assert (getitem (PDict derived) "extractive_answers" = Return (PList []))
        as -> by (unfold getitem; by rewrite Hempty).
      by run. }
  split; [done |]. unfold get_search_response. rewrite Htry.
  rewrite except_clauses_Exception; [done |].
  by destruct Hcase as [[_ ->] | (derived & _ & [[_ ->] | [_ ->]])].
Qed.

(** X18. Once the client is built and the search has answered, the [try]
    block can only raise a lookup exception ([KeyError], [IndexError] or
    [TypeError]) from reading the response; the second clause catches it,
    and what the tool raises is the [TypeError] of that clause's
    [ErrorData] call. *)
Theorem get_search_response_failure_after_response
    (search_query : string) (response : SearchResponse) (x : PyExc) :
  SearchServiceClient rt client_options = Return () →
  client_search rt (search_request search_query) = Return response →
  get_search_response rt search_query = Raise x →
  x = TypeError (PStr "BaseModel.__init__")
  ∧ ∃ e, lookup_error e = true
         ∧ isinstance_ValueError e = false
         ∧ get_search_response_try rt search_query = Raise e.
Proof.
  intros Hclient Hsearch.
  assert ((∃ v, get_search_response_try rt search_query = Return v)
          ∨ ∃ e, lookup_error e = true
                 ∧ get_search_response_try rt search_query = Raise e)
    as Hcases.
  { unfold get_search_response_try.
    rewrite Hclient; run. rewrite Hsearch; run.
    unfold results0. destruct (results response) as [|result more]; run.
    { right. by exists IndexError. }
    destruct (getitem (MessageToDict (document result)) "derived_struct_data")
      as [derived|e] eqn:H1; run;
      [|right; exists e; split; [by eapply getitem_raises | done]].
    destruct (getitem derived "extractive_answers")
      as [answers|e] eqn:H2; run;
      [|right; exists e; split; [by eapply getitem_raises | done]].
    destruct (getitem0 answers)
      as [answer|e] eqn:H3; run;
      [|right; exists e; split; [by eapply getitem0_raises | done]].
    destruct (getitem answer "content")
      as [content|e] eqn:H4;
      [left; eauto | right; exists e; split; [by eapply getitem_raises | done]]. }
  unfold get_search_response.
  destruct Hcases as [[v Hret] | (e & He & Htry)].
  - by rewrite Hret.
  - rewrite Htry. intros [= <-]. split.
    + by apply except_clauses_Exception, lookup_error_Exception.
    + exists e. by destruct e.
Qed.

(** *** What the functions raise *)

(** X19. [get_answer_response] never returns and never reaches the
    Discovery Engine: for every query its first statement raises
    [NameError] on [location]. *)
Theorem get_answer_response_raises_NameError (query : string) :
  get_answer_response rt query = Raise (NameError "location").
Proof. reflexivity. Qed.

(** X20. No [McpError] ever leaves a registered tool: whatever
    [get_search_response] or [get_deep_research_response] raises is the
    [TypeError] of a handler's [ErrorData] call, or an exception that does
    not derive from [Exception] and went uncaught. *)
Theorem registered_tools_never_raise_McpError
    (query : string) (start_new_session : bool) (p : Process) (x : PyExc) :
  get_search_response rt query = Raise x
  ∨ fst (get_deep_research_response rt query start_new_session p) = Raise x →
  (x = TypeError (PStr "BaseModel.__init__") ∨ isinstance_Exception x = false)
  ∧ ∀ code message, x ≠ McpError code message.
Proof.
  assert (∀ e, (except_clauses rt e = TypeError (PStr "BaseModel.__init__")
                ∨ isinstance_Exception (except_clauses rt e) = false)
               ∧ ∀ code message, except_clauses rt e ≠ McpError code message)
    as Hhandler.
  { intros e. destruct (except_clauses_cases rt e) as [-> | [-> Hbase]].
    - split; [by left | done].
    - split; [by right |]. intros code message ->. done. }
  intros [Hsearch | Hresearch].
  - unfold get_search_response in Hsearch.
    destruct (get_search_response_try rt query) as [v|e]; [done |].
    injection Hsearch as <-. apply Hhandler.
  - rewrite get_deep_research_response_steps in Hresearch. cbn [fst] in Hresearch.
    destruct (fst (get_deep_research_response_try rt query start_new_session p))
      as [v|e]; [done |].
    injection Hresearch as <-. apply Hhandler.
Qed.

End Behaviour.

(** ** The further properties on the sample runtimes *)

Lemma get_deep_research_response_sends_one_request_witness :
  wire (snd (get_deep_research_response (answering (PList [])) "wire fees" false
               (Cases.environment "sessions/41")))
  = [{| url := stream_assist_url;
        data := dumps (PDict [("query", PDict [("text", PStr "wire fees")]);
                              ("answerGenerationMode", PStr "research");
                              ("session", PStr "sessions/41")]);
        headers := [("Authorization", "Bearer ya29.token");
                    ("Content-Type", "application/json; charset=UTF-8");
                    ("X-Goog-User-Project", "the-foo-bar")] |}].
Proof.
  apply (get_deep_research_response_sends_one_request (answering (PList []))
           "wire fees" false (Cases.environment "sessions/41") "ya29.token").
  reflexivity.
Defined.

Lemma get_deep_research_response_without_credentials_witness :
  get_deep_research_response_try Cases.unauthenticated "wire fees" true
    (Cases.environment "sessions/41")
  = (Raise (ForeignError DerivesException "DefaultCredentialsError"
              "Your default credentials were not found."),
     Cases.environment "sessions/41")
  ∧ get_deep_research_response Cases.unauthenticated "wire fees" true
      (Cases.environment "sessions/41")
    = (Raise (TypeError (PStr "BaseModel.__init__")),
       Cases.environment "sessions/41").
Proof.
  apply (get_deep_research_response_without_credentials Cases.unauthenticated
           "wire fees" true (Cases.environment "sessions/41")
           (ForeignError DerivesException "DefaultCredentialsError"
              "Your default credentials were not found.")).
  - reflexivity.
  - reflexivity.
Defined.

Lemma get_deep_research_response_new_session_sends_no_session_witness :
  ∃ req,
    wire (snd (get_deep_research_response
                 (answering (PList [session_row (PStr "sessions/42") [reply "A"]]))
                 "wire fees" true (Cases.environment "sessions/41")))
    = (wire (Cases.environment "sessions/41") ++ [req])%list
    ∧ data req
      = dumps (PDict (stream_assist_request "wire fees"))
    ∧ dict_get "session" (stream_assist_request "wire fees") = None.
Proof.
  apply (get_deep_research_response_new_session_sends_no_session
           (answering (PList [session_row (PStr "sessions/42") [reply "A"]]))
           "wire fees" (Cases.environment "sessions/41") "ya29.token").
  reflexivity.
Defined.

Lemma get_deep_research_response_continues_stored_session_witness :
  ∃ req,
    wire (snd (get_deep_research_response (answering (PList [])) "wire fees" false
                 (Cases.environment "sessions/41")))
    = (wire (Cases.environment "sessions/41") ++ [req])%list
    ∧ data req
      = dumps (PDict (dict_setitem "session" (PStr "sessions/41")
                        (stream_assist_request "wire fees"))).
Proof.
  apply (get_deep_research_response_continues_stored_session
           (answering (PList [])) "wire fees" (Cases.environment "sessions/41")
           "ya29.token" "sessions/41").
  - reflexivity.
  - vm_compute. reflexivity.
  - reflexivity.
Defined.

Lemma get_deep_research_response_empty_session_not_sent_witness :
  ∃ req,
    wire (snd (get_deep_research_response (answering (PList [])) "wire fees" false
                 (Cases.environment "")))
    = (wire (Cases.environment "") ++ [req])%list
    ∧ data req = dumps (PDict (stream_assist_request "wire fees"))
    ∧ dict_get "session" (stream_assist_request "wire fees") = None.
Proof.
  apply (get_deep_research_response_empty_session_not_sent
           (answering (PList [])) "wire fees" (Cases.environment "") "ya29.token").
  - reflexivity.
  - vm_compute. reflexivity.
Defined.

Lemma get_deep_research_response_writes_only_SESSION_witness :
  environ (snd (get_deep_research_response
                  (answering (PList [session_row (PStr "sessions/42") [reply "A"]]))
                  "wire fees" true (Cases.environment "sessions/41")))
    !! "HOME"
  = environ (Cases.environment "sessions/41") !! "HOME".
Proof.
  apply (get_deep_research_response_writes_only_SESSION
           (answering (PList [session_row (PStr "sessions/42") [reply "A"]]))
           "wire fees" true (Cases.environment "sessions/41") "HOME").
  discriminate.
Defined.

Lemma get_deep_research_response_session_round_trip_witness :
  let rt := answering (PList [session_row (PStr "sessions/42") [reply "A"]]) in
  let p1 := snd (get_deep_research_response rt "wire fees" true
                   (Cases.environment "sessions/41")) in
  ∃ req,
    wire (snd (get_deep_research_response rt "and card fees?" false p1))
    = (wire p1 ++ [req])%list
    ∧ data req
      = dumps (PDict (dict_setitem "session" (PStr "sessions/42")
                        (stream_assist_request "and card fees?"))).
Proof.
  apply (get_deep_research_response_session_round_trip
           (answering (PList [session_row (PStr "sessions/42") [reply "A"]]))
           "wire fees" "and card fees?" "ya29.token"
           {| text := dumps (PList [session_row (PStr "sessions/42") [reply "A"]]) |}
           (session_row (PStr "sessions/42") [reply "A"]) [] "sessions/42"
           (Cases.environment "sessions/41")).
  - reflexivity.
  - reflexivity.
  - vm_compute. reflexivity.
  - reflexivity.
  - reflexivity.
  - reflexivity.
  - reflexivity.
Defined.

Lemma get_deep_research_response_undecodable_body_witness :
  let rt := runtime (Return {| text := "<html>Bad Gateway</html>" |})
              (Return {| results := [] |}) in
  let p := Cases.environment "sessions/41" in
  get_deep_research_response_try rt "wire fees" true p
  = (Raise (ForeignError DerivesValueError "JSONDecodeError"
              "Expecting value: line 1 column 1 (char 0)"),
     after_post (outgoing_request rt "wire fees" true p "ya29.token") p)
  ∧ get_deep_research_response rt "wire fees" true p
    = (Raise (TypeError (PStr "BaseModel.__init__")),
       after_post (outgoing_request rt "wire fees" true p "ya29.token") p).
Proof.
  apply (get_deep_research_response_undecodable_body
           (runtime (Return {| text := "<html>Bad Gateway</html>" |})
              (Return {| results := [] |}))
           "wire fees" true (Cases.environment "sessions/41") "ya29.token"
           {| text := "<html>Bad Gateway</html>" |}
           (ForeignError DerivesValueError "JSONDecodeError"
              "Expecting value: line 1 column 1 (char 0)")).
  - reflexivity.
  - reflexivity.
  - vm_compute. reflexivity.
  - reflexivity.
Defined.

Lemma get_deep_research_response_unreadable_session_witness :
  let rt := Cases.answering Cases.error_body in
  let p := Cases.environment "sessions/41" in
  get_deep_research_response_try rt "wire fees" true p
  = (Raise (KeyError (PInt 0)),
     after_post (outgoing_request rt "wire fees" true p "ya29.token") p)
  ∧ get_deep_research_response rt "wire fees" true p
    = (Raise (TypeError (PStr "BaseModel.__init__")),
       after_post (outgoing_request rt "wire fees" true p "ya29.token") p).
Proof.
  apply (get_deep_research_response_unreadable_session
           (Cases.answering Cases.error_body) "wire fees"
           (Cases.environment "sessions/41") "ya29.token"
           {| text := dumps Cases.error_body |} Cases.error_body
           (KeyError (PInt 0))).
  - reflexivity.
  - reflexivity.
  - vm_compute. reflexivity.
  - reflexivity.
Defined.

Lemma get_deep_research_response_body_without_rows_witness :
  let rt := Cases.answering Cases.error_body in
  let p := Cases.environment "sessions/41" in
  get_deep_research_response rt "wire fees" false p
  = (Return heading,
     after_post (outgoing_request rt "wire fees" false p "ya29.token") p).
Proof.
  apply (get_deep_research_response_body_without_rows
           (Cases.answering Cases.error_body) "wire fees"
           (Cases.environment "sessions/41") "ya29.token"
           {| text := dumps Cases.error_body |} Cases.error_body).
  - reflexivity.
  - reflexivity.
  - vm_compute. reflexivity.
  - right. left. eexists. reflexivity.
Defined.

Lemma get_deep_research_response_scalar_body_witness :
  let rt := Cases.answering (PInt 7) in
  let p := Cases.environment "sessions/41" in
  get_deep_research_response_try rt "wire fees" false p
  = (Raise (TypeError (PInt 7)),
     after_post (outgoing_request rt "wire fees" false p "ya29.token") p)
  ∧ get_deep_research_response rt "wire fees" false p
    = (Raise (TypeError (PStr "BaseModel.__init__")),
       after_post (outgoing_request rt "wire fees" false p "ya29.token") p).
Proof.
  apply (get_deep_research_response_scalar_body
           (Cases.answering (PInt 7)) "wire fees" false
           (Cases.environment "sessions/41") "ya29.token"
           {| text := dumps (PInt 7) |} (PInt 7)).
  - reflexivity.
  - reflexivity.
  - vm_compute. reflexivity.
  - reflexivity.
Defined.

Lemma get_deep_research_response_report_begins_with_heading_witness :
  ∃ fragments, heading +:+ "A" +:+ LF = heading +:+ fragments.
Proof.
  apply (get_deep_research_response_report_begins_with_heading
           (answering (PList [session_row (PStr "sessions/42") [reply "A"]]))
           "wire fees" true (Cases.environment "sessions/41")).
  vm_compute. reflexivity.
Defined.

Lemma process_deep_research_response_well_formed_rows_witness :
  let rows := [row [reply "A"; reply "B"]; row []; row [reply "C"]] in
  process_deep_research_response (Cases.answering (PList rows))
    {| text := dumps (PList rows) |}
  = Return (heading +:+ "A" +:+ LF +:+ "B" +:+ LF +:+ "C" +:+ LF).
Proof.
  apply (process_deep_research_response_well_formed_rows
           (Cases.answering
              (PList [row [reply "A"; reply "B"]; row []; row [reply "C"]]))
           {| text := dumps (PList [row [reply "A"; reply "B"]; row [];
                                    row [reply "C"]]) |}
           [row [reply "A"; reply "B"]; row []; row [reply "C"]]
           [["A"; "B"]; []; ["C"]]).
  - vm_compute. reflexivity.
  - constructor.
    { exists [reply "A"; reply "B"]. split; [reflexivity | repeat constructor]. }
    constructor.
    { exists []. split; [reflexivity | constructor]. }
    constructor; [|constructor].
    exists [reply "C"]. split; [reflexivity | repeat constructor].
Defined.

Lemma rows_loop_skips_unreadable_row_witness :
  rows_loop ([row [reply "A"]] ++ PStr "keep-alive" :: [row [reply "B"]]) heading
  = rows_loop ([row [reply "A"]] ++ [row [reply "B"]]) heading.
Proof.
  apply (rows_loop_skips_unreadable_row [row [reply "A"]] [row [reply "B"]]
           (PStr "keep-alive") (TypeError (PStr "keep-alive")) heading).
  reflexivity.
Defined.

Lemma row_stops_at_text_that_is_not_a_string_witness :
  row_try (row [reply "A"; Cases.numbered_reply; reply "C"]) heading
  = (Raise (TypeError (PInt 7)), heading +:+ "A" +:+ LF)
  ∧ rows_loop [row [reply "A"; Cases.numbered_reply; reply "C"]; row [reply "D"]]
      heading
    = rows_loop [row [reply "D"]] (heading +:+ "A" +:+ LF).
Proof.
  apply (row_stops_at_text_that_is_not_a_string
           (row [reply "A"; Cases.numbered_reply; reply "C"])
           [reply "A"] ["A"] Cases.numbered_reply [reply "C"] (PInt 7)
           [row [reply "D"]] heading).
  - reflexivity.
  - repeat constructor.
  - reflexivity.
  - reflexivity.
Defined.

Lemma get_search_response_first_result_without_answer_witness :
  let rt := searching
              [doc None;
               doc (Some [("extractive_answers",
                           PList [PDict [("content", PStr "Fees apply.")]])])] in
  get_search_response_try rt "wire fees"
  = Raise (KeyError (PStr "derived_struct_data"))
  ∧ get_search_response rt "wire fees"
    = Raise (TypeError (PStr "BaseModel.__init__")).
Proof.
  eapply (get_search_response_first_result_without_answer
            (searching
               [doc None;
                doc (Some [("extractive_answers",
                            PList [PDict [("content", PStr "Fees apply.")]])])])
            "wire fees" _ _ _ (KeyError (PStr "derived_struct_data"))).
  - reflexivity.
  - reflexivity.
  - reflexivity.
  - left. split; reflexivity.
Defined.

Lemma get_search_response_failure_after_response_witness :
  ∃ e, lookup_error e = true
       ∧ isinstance_ValueError e = false
       ∧ get_search_response_try
           (searching
              [doc (Some [("extractive_answers",
                           PList [PDict [("pageNumber", PStr "3")]])])])
           "wire fees"
         = Raise e.
Proof.
  apply (proj2 (get_search_response_failure_after_response
                  (searching
                     [doc (Some [("extractive_answers",
                                  PList [PDict [("pageNumber", PStr "3")]])])])
                  "wire fees"
                  {| results :=
                       [doc (Some [("extractive_answers",
                                    PList [PDict [("pageNumber", PStr "3")]])])] |}
                  (TypeError (PStr "BaseModel.__init__"))
                  eq_refl eq_refl eq_refl)).
Defined.

Lemma registered_tools_never_raise_McpError_witness :
  get_search_response offline "wire fees"
  = Raise (TypeError (PStr "BaseModel.__init__"))
  ∧ (TypeError (PStr "BaseModel.__init__") = TypeError (PStr "BaseModel.__init__")
     ∨ isinstance_Exception (TypeError (PStr "BaseModel.__init__")) = false)
  ∧ ∀ code message,
      TypeError (PStr "BaseModel.__init__") ≠ McpError code message.
Proof.
  split; [reflexivity |].
  apply (registered_tools_never_raise_McpError offline "wire fees" false
           (process None)).
  left. reflexivity.
Defined.

Lemma process_deep_research_response_keeps_fragments_before_malformed_reply_witness :
  process_deep_research_response Mixed.runtime
    {| text := dumps (PList Mixed.rows) |}
  = Return (heading +:+ "P" +:+ LF +:+ "A" +:+ LF +:+ "D" +:+ LF)
  ∧ ∀ raw_text,
      row_try (row [reply "A"; PDict [("state", PStr "SUCCEEDED")]; reply "C"])
        raw_text
      = (Raise (KeyError (PStr "groundedContent")),
         raw_text +:+ lines ["A"]).
Proof.
  apply (process_deep_research_response_keeps_fragments_before_malformed_reply
           Mixed.runtime {| text := dumps (PList Mixed.rows) |}
           [row [reply "P"]] [row [reply "D"]]
           (row [reply "A"; PDict [("state", PStr "SUCCEEDED")]; reply "C"])
           [reply "A"] ["A"] (PDict [("state", PStr "SUCCEEDED")]) [reply "C"]
           (KeyError (PStr "groundedContent"))).
  - vm_compute. reflexivity.
  - reflexivity.
  - repeat constructor.
  - reflexivity.
Defined.

(** A session that is a lone surrogate, as [json.loads] makes of an
    escaped D800, is refused by the environment; one that is U+DC80 is
    kept. *)
Example environ_value_lone_surrogate :
  environ_value (String (Ascii.ascii_of_N 237)
                   (String (Ascii.ascii_of_N 160)
                      (String (Ascii.ascii_of_N 128) EmptyString)))
  = Raise (ForeignError DerivesValueError "UnicodeEncodeError"
             "surrogates not allowed")
  ∧ environ_value (String (Ascii.ascii_of_N 237)
                     (String (Ascii.ascii_of_N 178)
                        (String (Ascii.ascii_of_N 128) EmptyString)))
    = Return (String (Ascii.ascii_of_N 237)
                (String (Ascii.ascii_of_N 178)
                   (String (Ascii.ascii_of_N 128) EmptyString))).
Proof. split; reflexivity. Qed.
